(** * concoord/nameserver.py: the DNS front end of a replicated cluster

    A shallow embedding of [Nameserver] (src/concoord/nameserver.py): the
    query classifier, the per-record-type dispatcher, the textual record
    formatters, the response builder and the zone revision counter.

    Python strings are [string]; Python integers that are never negative
    here (record types, ports, message ids, serials) are [N].  A raised
    exception is the [Raise] branch of [result].  The socket, the logger
    and the wire codec of dnspython are outside the model: a decoded query
    comes in, and the message handed to [sendto] comes out. *)

From Stdlib Require Import List String Ascii NArith Arith Bool Lia.
From Stdlib Require Import Decimal DecimalString DecimalN.
Import ListNotations.

Open Scope string_scope.
Open Scope N_scope.

(** ** Exceptions *)

Inductive exn : Type :=
| IndexError
| ValueError
| TypeError
| UnboundLocalError
| SyntaxError
| EmptyLabel
| LabelTooLong
| NameTooLong.

Inductive result (A : Type) : Type :=
| Ok (a : A)
| Raise (e : exn).

Arguments Ok {A} a.
Arguments Raise {A} e.

Definition bind {A B : Type} (r : result A) (k : A -> result B) : result B :=
  match r with
  | Ok a => k a
  | Raise e => Raise e
  end.

Notation "x <- r ;; k" := (bind r (fun x => k))
  (at level 61, r at next level, right associativity).

Definition of_option {A : Type} (e : exn) (o : option A) : result A :=
  match o with
  | Some a => Ok a
  | None => Raise e
  end.

(** ** Python string primitives *)

Module Py.

(** The two characters a Rocq literal cannot hold. *)
Definition nl : string := String (ascii_of_nat 10) EmptyString.
Definition dquote : string := String (ascii_of_nat 34) EmptyString.

(** [str(n)] and ["%d" % n] for a non-negative integer. *)
Definition str (n : N) : string := NilEmpty.string_of_uint (N.to_uint n).

(** [int(s)] on a string of ASCII digits; anything else is a ValueError
    (signs, blanks and underscores, which Python also reads, never reach
    the one call site: the revision always ends in digits). *)
Definition int (s : string) : result N :=
  match s with
  | EmptyString => Raise ValueError
  | _ => of_option ValueError (option_map N.of_uint (NilEmpty.uint_of_string s))
  end.

(** [s.zfill(width)] for an unsigned numeral. *)
Fixpoint zeros (k : nat) : string :=
  match k with
  | O => EmptyString
  | S k' => String "0" (zeros k')
  end.

Definition zfill (width : nat) (s : string) : string :=
  zeros (width - String.length s) ++ s.

(** [needle in s]: substring test. *)
Fixpoint contains (needle s : string) : bool :=
  String.prefix needle s
  || match s with
     | EmptyString => false
     | String _ s' => contains needle s'
     end.

(** [s[:-1]]. *)
Fixpoint drop_last (s : string) : string :=
  match s with
  | EmptyString => EmptyString
  | String _ EmptyString => EmptyString
  | String a s' => String a (drop_last s')
  end.

(** [s[-2] + s[-1]]; IndexError on a string shorter than two. *)
Definition last_two (s : string) : result string :=
  let n := String.length s in
  if (n <? 2)%nat then Raise IndexError
  else Ok (String.substring (n - 2) 2 s).

(** [s.split(c)] for a one-character separator: never an empty list. *)
Fixpoint split (c : ascii) (s : string) : list string :=
  match s with
  | EmptyString => [EmptyString]
  | String a s' =>
      if Ascii.eqb a c then EmptyString :: split c s'
      else match split c s' with
           | h :: t => String a h :: t
           | [] => [String a EmptyString]
           end
  end.

(** [s.find(c)]: index of the first occurrence, -1 (here [None]) without. *)
Definition find (c : ascii) (s : string) : option nat :=
  String.index 0 (String c EmptyString) s.

(** [sep.join(parts)]. *)
Definition join (sep : string) (parts : list string) : string :=
  String.concat sep parts.

(** [xs[i]] on a list: IndexError out of range. *)
Definition index {A : Type} (xs : list A) (i : N) : result A :=
  of_option IndexError (nth_error xs (N.to_nat i)).

(** ASCII lower-casing, as DNS label comparison uses it. *)
Definition lower_ascii (a : ascii) : ascii :=
  let n := nat_of_ascii a in
  if ((65 <=? n) && (n <=? 90))%nat then ascii_of_nat (n + 32) else a.

Fixpoint lower (s : string) : string :=
  match s with
  | EmptyString => EmptyString
  | String a s' => String (lower_ascii a) (lower s')
  end.

End Py.

(** ** The part of dnspython the nameserver relies on *)

Module Dns.

(** [dns.rdatatype], [dns.opcode] and [dns.rcode] constants. *)
Definition A : N := 1.
Definition NS : N := 2.
Definition SOA : N := 6.
Definition TXT : N := 16.
Definition AAAA : N := 28.
Definition SRV : N := 33.
Definition QUERY : N := 0.
Definition NOERROR : N := 0.

(** [dns.name.Name]: the tuple of labels; an absolute name ends in the
    empty label. *)
Definition Name : Type := list string.

Fixpoint first_empty (labels : list string) (j : nat) : option nat :=
  match labels with
  | [] => None
  | l :: rest => if String.eqb l "" then Some j else first_empty rest (S j)
  end.

(** The constructor's label check: a label over 63 bytes, a name over 255
    bytes, an empty label anywhere but last. *)
Definition Name_new (labels : list string) : result Name :=
  if existsb (fun l => (63 <? String.length l)%nat) labels then Raise LabelTooLong
  else if (255 <? list_sum (map (fun l => S (String.length l)) labels))%nat
  then Raise NameTooLong
  else match first_empty labels 0 with
       | Some i => if (S i =? List.length labels)%nat then Ok labels
                   else Raise EmptyLabel
       | None => Ok labels
       end.

(** [Name.__eq__] on two names: label by label, ignoring ASCII case. *)
Fixpoint Name_eqb (a b : Name) : bool :=
  match a, b with
  | [], [] => true
  | x :: a', y :: b' => String.eqb (Py.lower x) (Py.lower y) && Name_eqb a' b'
  | _, _ => false
  end.

(** One entry of a message's question section. *)
Record Question : Type := {
  name : Name;
  rdtype : N;
  rdclass : N
}.

(** A decoded inbound message, as [dns.message.from_wire] returns it. *)
Record Query : Type := {
  id : N;
  question : list Question
}.

(** The responses [handle_query] holds: the skeleton made from the query,
    or a message read back from the textual form.  Of the reading only the
    [id] header line is modelled; a text dnspython would refuse (an ADDRESS
    payload that is no IPv4 literal, say) is kept as it is. *)
Inductive Message : Type :=
| make_response (query : Query)
| from_text (text : string).

(** The text before the first line feed. *)
Fixpoint first_line (s : string) : string :=
  match s with
  | EmptyString => EmptyString
  | String a s' =>
      if Ascii.eqb a (ascii_of_nat 10) then EmptyString
      else String a (first_line s')
  end.

Definition strip_prefix (p s : string) : option string :=
  if String.prefix p s
  then Some (String.substring (String.length p)
               (String.length s - String.length p) s)
  else None.

(** [message.id]: the query's id for the skeleton, the number on the
    [id] header line for a message read from text. *)
Definition message_id (m : Message) : result N :=
  match m with
  | make_response query => Ok (id query)
  | from_text text =>
      match strip_prefix "id " text with
      | Some rest => Py.int (first_line rest)
      | None => Raise SyntaxError
      end
  end.

(** The renderings dnspython supplies: [str(name)] and
    [question.to_text()]. *)
Class Text : Type := {
  name_to_text : Name -> string;
  question_to_text : Question -> string
}.

End Dns.

(** ** concoord.enums and concoord.utils *)

(** The node types of [concoord.enums] and the table of their names. *)
Class Enums : Type := {
  node_type : Type;
  node_type_eqb : node_type -> node_type -> bool;
  NODE_NAMESERVER : node_type;
  node_names : node_type -> string
}.

(** ** Module constants *)

Definition RRTYPE : list string :=
  [""; "A"; "NS"; "MD"; "MF"; "CNAME"; "SOA"; "MB"; "MG"; "MR"; "NULL";
   "WKS"; "PTR"; "HINFO"; "MINFO"; "MX"; "TXT"; "RP"; "AFSDB";
   "X25"; "ISDN"; "RT"; "NSAP"; "NSAP_PTR"; "SIG"; "KEY"; "PX";
   "GPOS"; "AAAA"; "LOC"; "NXT"; ""; ""; "SRV"].
Definition RRCLASS : list string := [""; "IN"; "CS"; "CH"; "HS"].
Definition OPCODES : list string := ["QUERY"; "IQUERY"; "STATUS"].
Definition RCODES : list string :=
  ["NOERROR"; "FORMERR"; "SERVFAIL"; "NXDOMAIN"; "NOTIMP"; "REFUSED"].

Definition SRVNAME : string := "_concoord._tcp.".

(** ** The nameserver *)

Section Model.
Context {E : Enums} {T : Dns.Text}.

(** A member of the view: [peer.addr], [peer.port], [peer.type]. *)
Record Replica : Type := {
  addr : string;
  port : N;
  type : node_type
}.

(** Modelled from the spec: [get_addresses] of concoord.utils is not among
    the sources.  One address per Replica of the view, in the view's own
    order. *)
Definition get_addresses (group : list Replica) : list string :=
  map addr group.

(** Modelled from the spec: [get_addressportpairs] of concoord.utils is not
    among the sources.  One (address, port) pair per Replica of the view,
    in the view's own order. *)
Definition get_addressportpairs (group : list Replica) : list (string * N) :=
  map (fun peer => (addr peer, port peer)) group.

(** The attributes [__init__] sets that the query path reads.
    [mydomain] is a [Name] or, for a domain without an inner dot, the bare
    string. *)
Record Nameserver : Type := {
  ipconverter : string;
  mydomain : Dns.Name + string;
  mysrvdomain : Dns.Name;
  replicas : list Replica;
  revision : string
}.

(** [__init__], up to the socket; [today] is [strftime("%Y%m%d", gmtime())]. *)
Definition Nameserver_init (domain : string) (replicas : list Replica)
    (today : string) : result Nameserver :=
  let ipconverter := ".ipaddr." ++ domain ++ "." in
  mydomain <-
    (match Py.find "." domain with
     | Some (S _) =>
         n <- Dns.Name_new (Py.split "." (domain ++ ".")) ;; Ok (inl n)
     | _ => Ok (inr domain)
     end) ;;
  mysrvdomain <- Dns.Name_new (Py.split "." (SRVNAME ++ domain ++ ".")) ;;
  Ok {| ipconverter := ipconverter;
        mydomain := mydomain;
        mysrvdomain := mysrvdomain;
        replicas := replicas;
        revision := today ++ Py.zfill 2 (Py.str 0) |}.

(** [str(self.mydomain)]. *)
Definition mydomain_str (self : Nameserver) : string :=
  match mydomain self with
  | inl n => Dns.name_to_text n
  | inr s => s
  end.

(** [question.name == self.mydomain]: a [Name] never equals a [str]. *)
Definition name_is_mydomain (self : Nameserver) (n : Dns.Name) : bool :=
  match mydomain self with
  | inl d => Dns.Name_eqb n d
  | inr _ => false
  end.

(** The generators, as the lists they yield. *)
Definition aresponse (self : Nameserver) : list string :=
  get_addresses (replicas self).

Definition nsresponse (self : Nameserver) : list string :=
  map addr
    (filter (fun replica => node_type_eqb (type replica) NODE_NAMESERVER)
       (replicas self)).

Definition srvresponse (self : Nameserver) : list (string * N) :=
  map (fun ap => (fst ap ++ ipconverter self, snd ap))
    (get_addressportpairs (replicas self)).

Fixpoint txtresponse_loop (peers : list Replica) (txtstr : string) : string :=
  match peers with
  | [] => txtstr
  | peer :: rest =>
      txtresponse_loop rest
        (txtstr ++ node_names (type peer) ++ " " ++ addr peer ++ ":"
                ++ Py.str (port peer) ++ ";")
  end.

Definition txtresponse (self : Nameserver) : string :=
  Py.drop_last (txtresponse_loop (replicas self) "").

Definition ismydomainname (self : Nameserver) (question : Dns.Question) : bool :=
  name_is_mydomain self (Dns.name question)
  || ((Dns.rdtype question =? Dns.SRV)
      && Dns.Name_eqb (Dns.name question) (mysrvdomain self)).

Definition should_answer (self : Nameserver) (question : Dns.Question) : bool :=
  ((Dns.rdtype question =? Dns.AAAA)
   || (Dns.rdtype question =? Dns.A)
   || (Dns.rdtype question =? Dns.TXT)
   || (Dns.rdtype question =? Dns.NS)
   || (Dns.rdtype question =? Dns.SRV)
   || (Dns.rdtype question =? Dns.SOA))
  && ismydomainname self question.

(** *** Record formatters *)

Definition create_srv_answer_section (question : Dns.Question)
    (ttl rrclass priority weight : N) (port : option N) (addr : string)
    : result string :=
  rrclass_s <- Py.index RRCLASS rrclass ;;
  rrtype_s <- Py.index RRTYPE (Dns.rdtype question) ;;
  port_n <- of_option TypeError port ;;
  Ok (Dns.name_to_text (Dns.name question) ++ " " ++ Py.str ttl ++ " "
      ++ rrclass_s ++ " " ++ rrtype_s ++ " " ++ Py.str priority ++ " "
      ++ Py.str weight ++ " " ++ Py.str port_n ++ " " ++ addr ++ Py.nl).

Definition create_soa_answer_section (self : Nameserver)
    (question : Dns.Question) (ttl rrclass : N) : result string :=
  let refreshrate := 86000 in
  let updateretry := 7200 in
  let expiry := 360000 in
  let minimum := 432000 in
  rrclass_s <- Py.index RRCLASS rrclass ;;
  rrtype_s <- Py.index RRTYPE (Dns.rdtype question) ;;
  Ok (Dns.name_to_text (Dns.name question) ++ " " ++ Py.str ttl ++ " "
      ++ rrclass_s ++ " " ++ rrtype_s ++ " " ++ mydomain_str self ++ " "
      ++ "dns-admin." ++ mydomain_str self ++ " (" ++ revision self ++ " "
      ++ Py.str refreshrate ++ " " ++ Py.str updateretry ++ " "
      ++ Py.str expiry ++ " " ++ Py.str minimum ++ ")").

(** The local [resp] of [create_answer_section] after its if/elif chain:
    [None] when no branch assigned it. *)
Definition answer_section_resp (question : Dns.Question) (addr : string)
    (txt : option string) : option string :=
  if Dns.rdtype question =? Dns.A then Some addr
  else if Dns.rdtype question =? Dns.TXT then
    Some (Py.dquote
          ++ match txt with Some t => t | None => "None" end
          ++ Py.dquote)
  else if Dns.rdtype question =? Dns.NS then Some addr
  else None.

Definition create_answer_section (question : Dns.Question) (ttl rrclass : N)
    (addr : string) (txt : option string) : result string :=
  let resp := answer_section_resp question addr txt in
  rrclass_s <- Py.index RRCLASS rrclass ;;
  rrtype_s <- Py.index RRTYPE (Dns.rdtype question) ;;
  resp_s <- of_option UnboundLocalError resp ;;
  Ok (Dns.name_to_text (Dns.name question) ++ " " ++ Py.str ttl ++ " "
      ++ rrclass_s ++ " " ++ rrtype_s ++ " " ++ resp_s ++ Py.nl).

(** The three formatters no call site uses.  [ttl] and [nshost]/[addr] of
    the authority and additional formatters go through [str]; they are
    strings here, as their defaults are. *)
Definition create_mx_answer_section (question : Dns.Question)
    (ttl rrclass priority : N) (addr : string) : result string :=
  rrclass_s <- Py.index RRCLASS rrclass ;;
  rrtype_s <- Py.index RRTYPE (Dns.rdtype question) ;;
  Ok (Dns.name_to_text (Dns.name question) ++ " " ++ Py.str ttl ++ " "
      ++ rrclass_s ++ " " ++ rrtype_s ++ " " ++ Py.str priority ++ " "
      ++ addr ++ Py.nl).

Definition create_authority_section (question : Dns.Question)
    (ttl : string) (rrclass rrtype : N) (nshost : string) : result string :=
  rrclass_s <- Py.index RRCLASS rrclass ;;
  rrtype_s <- Py.index RRTYPE rrtype ;;
  Ok (Dns.name_to_text (Dns.name question) ++ " " ++ ttl ++ " "
      ++ rrclass_s ++ " " ++ rrtype_s ++ " " ++ nshost ++ Py.nl).

Definition create_additional_section (question : Dns.Question)
    (ttl : string) (rrclass rrtype : N) (addr : string) : result string :=
  rrclass_s <- Py.index RRCLASS rrclass ;;
  rrtype_s <- Py.index RRTYPE rrtype ;;
  Ok (Dns.name_to_text (Dns.name question) ++ " " ++ ttl ++ " "
      ++ rrclass_s ++ " " ++ rrtype_s ++ " " ++ addr ++ Py.nl).

(** *** Response builder *)

Definition create_response (id opcode rcode : N)
    (flags question answer authority additional : string) : result string :=
  let answerstr :=
    if String.eqb answer "" then "" else ";ANSWER" ++ Py.nl ++ answer ++ Py.nl in
  let authoritystr :=
    if String.eqb authority "" then ""
    else ";AUTHORITY" ++ Py.nl ++ authority ++ Py.nl in
  let additionalstr :=
    if String.eqb additional "" then ""
    else ";ADDITIONAL" ++ Py.nl ++ additional ++ Py.nl in
  opcode_s <- Py.index OPCODES opcode ;;
  rcode_s <- Py.index RCODES rcode ;;
  Ok ("id " ++ Py.str id ++ Py.nl ++ "opcode " ++ opcode_s ++ Py.nl
      ++ "rcode " ++ rcode_s ++ Py.nl ++ "flags " ++ flags ++ Py.nl
      ++ ";QUESTION" ++ Py.nl ++ question ++ Py.nl
      ++ answerstr ++ authoritystr ++ additionalstr).

(** *** Dispatcher *)

(** [for x in xs: answerstr += body(x)]. *)
Fixpoint accumulate {X : Type} (body : X -> result string) (xs : list X)
    (answerstr : string) : result string :=
  match xs with
  | [] => Ok answerstr
  | x :: rest => s <- body x ;; accumulate body rest (answerstr ++ s)
  end.

(** The answerable branch of [handle_query]'s loop body, up to the call of
    [create_response]: the pair (flagstr, answerstr). *)
Definition answer_question (self : Nameserver) (question : Dns.Question)
    : result (string * string) :=
  let flagstr := "QR AA" in
  let answerstr := "" in
  if Dns.rdtype question =? Dns.AAAA then Ok ("QR", answerstr)
  else if Dns.rdtype question =? Dns.A then
    answerstr <- accumulate
        (fun address => create_answer_section question 30 1 address None)
        (aresponse self) answerstr ;;
    Ok (flagstr, answerstr)
  else if Dns.rdtype question =? Dns.TXT then
    answerstr <- create_answer_section question 30 1 ""
                   (Some (txtresponse self)) ;;
    Ok (flagstr, answerstr)
  else if Dns.rdtype question =? Dns.NS then
    answerstr <- accumulate
        (fun address => create_answer_section question 30 1 address None)
        (nsresponse self) answerstr ;;
    Ok (flagstr, answerstr)
  else if Dns.rdtype question =? Dns.SOA then
    answerstr <- create_soa_answer_section self question 30 1 ;;
    Ok (flagstr, answerstr)
  else if Dns.rdtype question =? Dns.SRV then
    answerstr <- accumulate
        (fun ap => create_srv_answer_section question 30 1 0 100
                     (Some (snd ap)) (fst ap))
        (srvresponse self) answerstr ;;
    Ok (flagstr, answerstr)
  else Ok (flagstr, answerstr).

(** The loop of [handle_query] over the remaining questions, [response]
    being the message held so far.  [Ok None]: returned without sending;
    [Ok (Some m)]: [m] goes to [sendto]. *)
Fixpoint handle_questions (self : Nameserver) (questions : list Dns.Question)
    (response : Dns.Message) : result (option Dns.Message) :=
  match questions with
  | [] => Ok (Some response)
  | question :: rest =>
      if should_answer self question then
        fa <- answer_question self question ;;
        response_id <- Dns.message_id response ;;
        responsestr <- create_response response_id Dns.QUERY Dns.NOERROR
                         (fst fa) (Dns.question_to_text question) (snd fa)
                         "" "" ;;
        handle_questions self rest (Dns.from_text responsestr)
      else Ok None
  end.

Definition handle_query (self : Nameserver) (query : Dns.Query)
    : result (option Dns.Message) :=
  handle_questions self (Dns.question query) (Dns.make_response query).

(** *** Zone revision *)

(** [update]; [today_test] and [today_stamp] are the two clock readings the
    method takes, in its test and in its assignment. *)
(** [self.revision = r]. *)
Definition set_revision (self : Nameserver) (r : string) : Nameserver :=
  {| ipconverter := ipconverter self;
     mydomain := mydomain self;
     mysrvdomain := mysrvdomain self;
     replicas := replicas self;
     revision := r |}.

Definition update (today_test today_stamp : string) (self : Nameserver)
    : result Nameserver :=
  if Py.contains today_test (revision self) then
    digits <- Py.last_two (revision self) ;;
    rno <- Py.int digits ;;
    let rno := rno + 1 in
    Ok (set_revision self (today_stamp ++ Py.zfill 2 (Py.str rno)))
  else
    Ok (set_revision self (today_stamp ++ Py.zfill 2 (Py.str 0))).

End Model.

(** ** The vocabulary of the specification *)

(** Whether character [c] occurs in [s]. *)
Fixpoint has_char (c : ascii) (s : string) : bool :=
  match s with
  | EmptyString => false
  | String a s' => Ascii.eqb a c || has_char c s'
  end.

(** ASCII decimal digits, and strings made of them. *)
Definition is_digit (a : ascii) : bool :=
  let n := nat_of_ascii a in ((48 <=? n) && (n <=? 57))%nat.

Fixpoint all_digits (s : string) : bool :=
  match s with
  | EmptyString => true
  | String a s' => is_digit a && all_digits s'
  end.

(** A revision string the serial can be read back from: its last two
    characters are decimal digits. *)
Definition ends_in_two_digits (r : string) : bool :=
  match Py.last_two r with
  | Ok digits => all_digits digits
  | Raise _ => false
  end.

(** Concatenation of rendered lines. *)
Fixpoint flat (parts : list string) : string :=
  match parts with
  | [] => EmptyString
  | p :: rest => p ++ flat rest
  end.

(** An Answer Record of the data model: owner name, time-to-live, class,
    type and type-specific payload, and the line that renders it. *)
Record AnswerRecord : Type := {
  owner : string;
  ttl : N;
  rclass : string;
  rtype : string;
  payload : string
}.

Definition render_record (r : AnswerRecord) : string :=
  owner r ++ " " ++ Py.str (ttl r) ++ " " ++ rclass r ++ " " ++ rtype r
  ++ " " ++ payload r ++ Py.nl.

(** A SERVICE record: the payload is priority, weight, port and target. *)
Record ServiceRecord : Type := {
  srv_owner : string;
  srv_ttl : N;
  srv_priority : N;
  srv_weight : N;
  srv_port : N;
  srv_target : string
}.

Definition render_service (r : ServiceRecord) : string :=
  render_record
    {| owner := srv_owner r; ttl := srv_ttl r; rclass := "IN"; rtype := "SRV";
       payload := Py.str (srv_priority r) ++ " " ++ Py.str (srv_weight r)
                  ++ " " ++ Py.str (srv_port r) ++ " " ++ srv_target r |}.

(** The part of the textual form that is always there: the four header
    lines and the question section. *)
Definition header_text (id : N) (opcode rcode flags question : string)
    : string :=
  "id " ++ Py.str id ++ Py.nl ++ "opcode " ++ opcode ++ Py.nl
  ++ "rcode " ++ rcode ++ Py.nl ++ "flags " ++ flags ++ Py.nl
  ++ ";QUESTION" ++ Py.nl ++ question ++ Py.nl.

(** The header and question echo of a NOERROR reply to a QUERY. *)
Definition response_header (id : N) (flags question : string) : string :=
  header_text id "QUERY" "NOERROR" flags question.

(** One section of the textual form, and the sections that are emitted:
    those with content. *)
Definition render_section (s : string * string) : string :=
  fst s ++ Py.nl ++ snd s ++ Py.nl.

Definition emitted_sections (sections : list (string * string))
    : list (string * string) :=
  filter (fun s => negb (String.eqb (snd s) "")) sections.

(** The text of a reply whose only section besides the question is the
    answer section. *)
Definition response_text (id : N) (flags question answer : string) : string :=
  response_header id flags question
  ++ flat (map render_section (emitted_sections [(";ANSWER", answer)])).

Section Reading.
Context {E : Enums} {T : Dns.Text}.

(** The record an answer line of the dispatcher stands for: the queried
    name as owner, 30 seconds to live, class IN. *)
Definition plain_record (question : Dns.Question) (rtype payload : string)
    : AnswerRecord :=
  {| owner := Dns.name_to_text (Dns.name question); ttl := 30;
     rclass := "IN"; rtype := rtype; payload := payload |}.

(** The SERVICE record of one (address, port) pair: priority 0, weight
    100, the address followed by [suffix] as target. *)
Definition service_record (question : Dns.Question) (suffix : string)
    (pair : string * N) : ServiceRecord :=
  {| srv_owner := Dns.name_to_text (Dns.name question); srv_ttl := 30;
     srv_priority := 0; srv_weight := 100;
     srv_port := snd pair; srv_target := fst pair ++ suffix |}.

(** One segment of the TEXT payload: role name, address and port. *)
Definition segment (peer : Replica) : string :=
  node_names (type peer) ++ " " ++ addr peer ++ ":" ++ Py.str (port peer).

(** The questions of a query that the classifier accepts, and the last of
    them. *)
Definition answerable (self : Nameserver) (questions : list Dns.Question)
    : list Dns.Question :=
  filter (should_answer self) questions.

Definition last_answerable (self : Nameserver) (questions : list Dns.Question)
    : option Dns.Question :=
  List.last (map Some (answerable self questions)) None.

(** A query that asks one question only. *)
Definition single (id : N) (q : Dns.Question) : Dns.Query :=
  {| Dns.id := id; Dns.question := [q] |}.

(** [n] calls of [update], all on the day [today]. *)
Fixpoint updates (n : nat) (today : string) (self : Nameserver)
    : result Nameserver :=
  match n with
  | O => Ok self
  | S n' => self' <- updates n' today self ;; update today today self'
  end.

(** The revision string after [n] such calls. *)
Definition revision_after (n : nat) (today : string) (self : Nameserver)
    : result string :=
  self' <- updates n today self ;; Ok (revision self').

(** What a two-digit serial must satisfy: two characters that read back
    as the number. *)
Definition two_digit_ok (n : N) : bool :=
  (String.length (Py.zfill 2 (Py.str n)) =? 2)%nat
  && match Py.int (Py.zfill 2 (Py.str n)) with
     | Ok m => m =? n
     | Raise _ => false
     end.

(** A run of [update] calls, one per pair of clock readings (the reading
    of the test, the reading of the assignment). *)
Fixpoint update_all (clocks : list (string * string)) (self : Nameserver)
    : result Nameserver :=
  match clocks with
  | [] => Ok self
  | (today_test, today_stamp) :: rest =>
      self' <- update today_test today_stamp self ;; update_all rest self'
  end.

(** The text of a ZONE_AUTHORITY record as the server would give it. *)
Definition zone_authority_line (self : Nameserver) (question : Dns.Question)
    : string :=
  Dns.name_to_text (Dns.name question) ++ " 30 IN SOA " ++ mydomain_str self
  ++ " dns-admin." ++ mydomain_str self ++ " (" ++ revision self
  ++ " 86000 7200 360000 432000)".

End Reading.

(** ** A concrete deployment, for evaluating the model *)

Module Sample.

Inductive node : Type := CLIENT | REPLICA | NAMESERVER.

Definition node_eqb (a b : node) : bool :=
  match a, b with
  | CLIENT, CLIENT | REPLICA, REPLICA | NAMESERVER, NAMESERVER => true
  | _, _ => false
  end.

#[export] Instance enums : Enums := {|
  node_type := node;
  node_type_eqb := node_eqb;
  NODE_NAMESERVER := NAMESERVER;
  node_names := fun t =>
    match t with
    | CLIENT => "CLIENT"
    | REPLICA => "REPLICA"
    | NAMESERVER => "NAMESERVER"
    end
|}.

#[export] Instance text : Dns.Text := {|
  Dns.name_to_text := fun n => Py.join "." n;
  Dns.question_to_text := fun q =>
    Py.join "." (Dns.name q) ++ " IN "
    ++ nth (N.to_nat (Dns.rdtype q)) RRTYPE ""
|}.

Definition view : list Replica :=
  [ {| addr := "10.0.0.1"; port := 14000; type := REPLICA |};
    {| addr := "10.0.0.2"; port := 14001; type := NAMESERVER |} ].

Definition server_with (replicas : list Replica) (revision : string)
    : Nameserver :=
  {| ipconverter := ".ipaddr.example.com.";
     mydomain := inl ["example"; "com"; ""];
     mysrvdomain := ["_concoord"; "_tcp"; "example"; "com"; ""];
     replicas := replicas;
     revision := revision |}.

Definition server : Nameserver := server_with view "2024060100".

Definition ask (rdtype : N) : Dns.Question :=
  {| Dns.name := ["example"; "com"; ""]; Dns.rdtype := rdtype; Dns.rdclass := 1 |}.

Definition MX : N := 15.

(** A SERVICE question for the service-discovery subdomain. *)
Definition service_question : Dns.Question :=
  {| Dns.name := ["_concoord"; "_tcp"; "example"; "com"; ""];
     Dns.rdtype := Dns.SRV; Dns.rdclass := 1 |}.

(** Two answerable questions in one query. *)
Definition two_questions : Dns.Query :=
  {| Dns.id := 7; Dns.question := [ask Dns.SRV; ask Dns.SOA] |}.

(** An answerable question followed by one of an unsupported type. *)
Definition mixed_query : Dns.Query :=
  {| Dns.id := 7; Dns.question := [ask Dns.A; ask MX] |}.

(** The same server over an empty view. *)
Definition empty_server : Nameserver := server_with [] "2024060100".

(** A server for a domain without a dot, as [__init__] builds it. *)
Definition local_server : Nameserver :=
  {| ipconverter := ".ipaddr.localhost.";
     mydomain := inr "localhost";
     mysrvdomain := ["_concoord"; "_tcp"; "localhost"; ""];
     replicas := view;
     revision := "2024060100" |}.

(** Clock readings of three calls of [update]: two on the first of June,
    one on the second. *)
Definition three_clocks : list (string * string) :=
  [("20240601", "20240601"); ("20240601", "20240601");
   ("20240602", "20240602")].

End Sample.

(** * Properties *)

(** ** Strings *)

Lemma append_assoc (a b c : string) : (a ++ b) ++ c = a ++ (b ++ c).
Proof.
  induction a as [|x a IH]; simpl; [reflexivity | now rewrite IH].
Qed.

Lemma append_nil_r (a : string) : a ++ "" = a.
Proof.
  induction a as [|x a IH]; simpl; [reflexivity | now rewrite IH].
Qed.

Lemma length_append (a b : string) :
  String.length (a ++ b) = (String.length a + String.length b)%nat.
Proof.
  induction a as [|x a IH]; simpl; [reflexivity | now rewrite IH].
Qed.

Lemma has_char_append (c : ascii) (a b : string) :
  has_char c (a ++ b) = has_char c a || has_char c b.
Proof.
  induction a as [|x a IH]; simpl; [reflexivity|].
  rewrite IH. now rewrite orb_assoc.
Qed.

Lemma drop_last_snoc (s : string) (c : ascii) :
  Py.drop_last (s ++ String c "") = s.
Proof.
  induction s as [|x s IH]; simpl; [reflexivity|].
  rewrite IH. destruct s; reflexivity.
Qed.

Lemma drop_last_append (s tail : string) :
  tail <> "" -> Py.drop_last (s ++ tail) = s ++ Py.drop_last tail.
Proof.
  intros Htail. induction s as [|x s IH]; [reflexivity|].
  cbn [append Py.drop_last]. rewrite IH.
  destruct (s ++ tail) eqn:Hst; [|reflexivity].
  destruct s; [simpl in Hst; congruence | discriminate].
Qed.

Lemma split_without (c : ascii) (s : string) :
  has_char c s = false -> Py.split c s = [s].
Proof.
  induction s as [|x s IH]; simpl; intros H; [reflexivity|].
  apply orb_false_iff in H. destruct H as [Hx Hs].
  rewrite Hx, (IH Hs). reflexivity.
Qed.

Lemma split_append (c : ascii) (a b : string) :
  has_char c a = false ->
  Py.split c (a ++ String c b) = a :: Py.split c b.
Proof.
  induction a as [|x a IH]; simpl; intros H.
  - now rewrite Ascii.eqb_refl.
  - apply orb_false_iff in H. destruct H as [Hx Ha].
    rewrite Hx, (IH Ha). reflexivity.
Qed.

Lemma split_join (c : ascii) (parts : list string) :
  parts <> [] ->
  Forall (fun p => has_char c p = false) parts ->
  Py.split c (Py.join (String c "") parts) = parts.
Proof.
  unfold Py.join.
  induction parts as [|p rest IH]; intros Hne Hall; [congruence|].
  inversion Hall as [|? ? Hp Hrest]; subst.
  destruct rest as [|p' rest'].
  - simpl. now apply split_without.
  - change (String.concat (String c "") (p :: p' :: rest'))
      with (p ++ String c (String.concat (String c "") (p' :: rest'))).
    rewrite (split_append c p _ Hp). f_equal.
    apply IH; [discriminate | assumption].
Qed.

Lemma substring_all (s : string) : String.substring 0 (String.length s) s = s.
Proof.
  induction s as [|x s IH]; simpl; [reflexivity | now rewrite IH].
Qed.

Lemma substring_skip (a s : string) (m : nat) :
  String.substring (String.length a) m (a ++ s) = String.substring 0 m s.
Proof.
  induction a as [|x a IH]; simpl; [reflexivity | exact IH].
Qed.

Lemma prefix_append (a s : string) : String.prefix a (a ++ s) = true.
Proof.
  induction a as [|x a IH]; simpl.
  - destruct s; reflexivity.
  - destruct (ascii_dec x x); [exact IH | congruence].
Qed.

Lemma contains_append (a s : string) : Py.contains a (a ++ s) = true.
Proof.
  pose proof (prefix_append a s) as H.
  destruct (a ++ s); cbn [Py.contains]; now rewrite H.
Qed.

Lemma first_line_append (s rest : string) :
  has_char (ascii_of_nat 10) s = false ->
  Dns.first_line (s ++ Py.nl ++ rest) = s.
Proof.
  induction s as [|x s IH]; intros H.
  - reflexivity.
  - cbn [has_char] in H. apply orb_false_iff in H. destruct H as [Hx Hs].
    cbn [append Dns.first_line]. rewrite Hx. f_equal. exact (IH Hs).
Qed.

(** ** Decimal numerals *)

Lemma string_of_uint_digits (d : Decimal.uint) :
  all_digits (NilEmpty.string_of_uint d) = true.
Proof.
  induction d; simpl; auto.
Qed.

Lemma str_digits (n : N) : all_digits (Py.str n) = true.
Proof.
  apply string_of_uint_digits.
Qed.

Lemma digits_without (c : ascii) (s : string) :
  is_digit c = false -> all_digits s = true -> has_char c s = false.
Proof.
  intros Hc. induction s as [|x s IH]; simpl; intros H; [reflexivity|].
  apply andb_true_iff in H. destruct H as [Hx Hs].
  rewrite (IH Hs), orb_false_r.
  destruct (Ascii.eqb_spec x c) as [->|]; [congruence | reflexivity].
Qed.

Lemma str_nonempty (n : N) : Py.str n <> "".
Proof.
  unfold Py.str. intros H.
  assert (Hn : N.of_uint (N.to_uint n) = n) by apply DecimalN.Unsigned.of_to.
  destruct (N.to_uint n) eqn:Hd; simpl in H; try discriminate.
  simpl in Hn. subst n. discriminate.
Qed.

Lemma int_str (n : N) : Py.int (Py.str n) = Ok n.
Proof.
  unfold Py.int. destruct (Py.str n) eqn:Hs.
  - now apply str_nonempty in Hs.
  - rewrite <- Hs. unfold Py.str.
    rewrite NilEmpty.usu. simpl.
    now rewrite DecimalN.Unsigned.of_to.
Qed.

(** ** The response builder and the message id *)

Lemma header_text_unfold (id : N) (opcode rcode flags question rest : string) :
  header_text id opcode rcode flags question ++ rest =
  "id " ++ Py.str id ++ Py.nl ++ "opcode " ++ opcode ++ Py.nl
  ++ "rcode " ++ rcode ++ Py.nl ++ "flags " ++ flags ++ Py.nl
  ++ ";QUESTION" ++ Py.nl ++ question ++ Py.nl ++ rest.
Proof.
  unfold header_text. now rewrite !append_assoc.
Qed.

Lemma message_id_header (id : N) (opcode rcode flags question rest : string) :
  Dns.message_id
    (Dns.from_text (header_text id opcode rcode flags question ++ rest))
  = Ok id.
Proof.
  rewrite header_text_unfold.
  set (tail := "opcode " ++ _).
  unfold Dns.message_id, Dns.strip_prefix.
  rewrite (prefix_append "id ").
  rewrite (substring_skip "id "), length_append.
  replace (String.length "id " + String.length (Py.str id ++ Py.nl ++ tail)
           - String.length "id ")%nat
    with (String.length (Py.str id ++ Py.nl ++ tail)) by (simpl; lia).
  rewrite substring_all, first_line_append.
  - apply int_str.
  - apply digits_without; [reflexivity | apply str_digits].
Qed.

Lemma create_response_sections
    (id opcode rcode : N) (flags question answer authority additional : string)
    (opcode_s rcode_s : string) :
  nth_error OPCODES (N.to_nat opcode) = Some opcode_s ->
  nth_error RCODES (N.to_nat rcode) = Some rcode_s ->
  create_response id opcode rcode flags question answer authority additional
  = Ok (header_text id opcode_s rcode_s flags question
        ++ flat (map render_section
                   (emitted_sections
                      [(";ANSWER", answer); (";AUTHORITY", authority);
                       (";ADDITIONAL", additional)]))).
Proof.
  intros Hop Hrc.
  unfold create_response, Py.index. rewrite Hop, Hrc. cbn [of_option bind].
  rewrite header_text_unfold. do 2 f_equal.
  unfold emitted_sections, render_section. cbn [filter snd fst].
  destruct (String.eqb answer ""), (String.eqb authority ""),
    (String.eqb additional "");
    cbn [negb map flat fst snd]; rewrite ?append_assoc, ?append_nil_r;
    reflexivity.
Qed.

Lemma create_response_query (id : N) (flags question answer : string) :
  create_response id Dns.QUERY Dns.NOERROR flags question answer "" ""
  = Ok (response_text id flags question answer).
Proof.
  rewrite (create_response_sections _ _ _ _ _ _ _ _ "QUERY" "NOERROR")
    by reflexivity.
  unfold response_text, response_header, emitted_sections.
  cbn [filter snd]. destruct (String.eqb answer ""); reflexivity.
Qed.

Section Properties.
Context {E : Enums} {T : Dns.Text}.

(** ** The formatters *)

Lemma accumulate_flat {X : Type} (body : X -> result string)
    (line : X -> string) (xs : list X) (answerstr : string) :
  (forall x, In x xs -> body x = Ok (line x)) ->
  accumulate body xs answerstr = Ok (answerstr ++ flat (map line xs)).
Proof.
  revert answerstr.
  induction xs as [|x rest IH]; intros answerstr Hbody; cbn [accumulate map flat].
  - now rewrite append_nil_r.
  - rewrite (Hbody x) by (left; reflexivity). cbn [bind].
    rewrite IH by (intros y Hy; apply Hbody; right; exact Hy).
    now rewrite append_assoc.
Qed.

Lemma create_answer_section_A (question : Dns.Question) (address : string)
    (txt : option string) :
  Dns.rdtype question = Dns.A ->
  create_answer_section question 30 1 address txt
  = Ok (render_record (plain_record question "A" address)).
Proof.
  intros Ht. unfold create_answer_section, answer_section_resp.
  rewrite Ht. reflexivity.
Qed.

Lemma create_answer_section_NS (question : Dns.Question) (address : string)
    (txt : option string) :
  Dns.rdtype question = Dns.NS ->
  create_answer_section question 30 1 address txt
  = Ok (render_record (plain_record question "NS" address)).
Proof.
  intros Ht. unfold create_answer_section, answer_section_resp.
  rewrite Ht. reflexivity.
Qed.

Lemma create_answer_section_TXT (question : Dns.Question) (address txt : string) :
  Dns.rdtype question = Dns.TXT ->
  create_answer_section question 30 1 address (Some txt)
  = Ok (render_record
          (plain_record question "TXT" (Py.dquote ++ txt ++ Py.dquote))).
Proof.
  intros Ht. unfold create_answer_section, answer_section_resp.
  rewrite Ht. reflexivity.
Qed.

Lemma create_srv_answer_section_line (question : Dns.Question)
    (port : N) (target : string) :
  Dns.rdtype question = Dns.SRV ->
  create_srv_answer_section question 30 1 0 100 (Some port) target
  = Ok (render_service (service_record question "" (target, port))).
Proof.
  intros Ht. unfold create_srv_answer_section. rewrite Ht.
  cbn [Py.index of_option bind]. change (nth_error RRCLASS (N.to_nat 1))
    with (Some "IN"). change (nth_error RRTYPE (N.to_nat Dns.SRV))
    with (Some "SRV"). cbn [of_option bind].
  unfold render_service, render_record, service_record.
  cbn [owner ttl rclass rtype payload srv_owner srv_ttl srv_priority
       srv_weight srv_port srv_target fst snd].
  now rewrite append_nil_r, !append_assoc.
Qed.

(** ** The TEXT payload *)

Lemma txtresponse_loop_flat (peers : list Replica) (txtstr : string) :
  txtresponse_loop peers txtstr
  = txtstr ++ flat (map (fun peer => segment peer ++ ";") peers).
Proof.
  revert txtstr.
  induction peers as [|peer rest IH]; intros txtstr; cbn [txtresponse_loop map flat].
  - now rewrite append_nil_r.
  - rewrite IH. unfold segment. now rewrite !append_assoc.
Qed.

Lemma drop_last_segments (peers : list Replica) :
  Py.drop_last (flat (map (fun peer => segment peer ++ ";") peers))
  = Py.join ";" (map segment peers).
Proof.
  unfold Py.join.
  induction peers as [|peer rest IH]; [reflexivity|].
  destruct rest as [|peer' rest'].
  - cbn [map flat String.concat]. rewrite append_nil_r. apply drop_last_snoc.
  - change (flat (map (fun p => segment p ++ ";") (peer :: peer' :: rest')))
      with ((segment peer ++ ";")
            ++ flat (map (fun p => segment p ++ ";") (peer' :: rest'))).
    change (String.concat ";" (map segment (peer :: peer' :: rest')))
      with (segment peer ++ ";"
            ++ String.concat ";" (map segment (peer' :: rest'))).
    rewrite drop_last_append, IH.
    + apply append_assoc.
    + cbn [map flat]. rewrite append_assoc.
      destruct (segment peer'); discriminate.
Qed.

Lemma txtresponse_join (self : Nameserver) :
  txtresponse self = Py.join ";" (map segment (replicas self)).
Proof.
  unfold txtresponse. rewrite txtresponse_loop_flat.
  apply drop_last_segments.
Qed.

Lemma segment_without_semicolon (peer : Replica) :
  has_char ";" (node_names (type peer)) = false ->
  has_char ";" (addr peer) = false ->
  has_char ";" (segment peer) = false.
Proof.
  intros Hrole Haddr. unfold segment.
  rewrite !has_char_append, Hrole, Haddr.
  rewrite (digits_without ";" (Py.str (port peer)));
    [reflexivity | reflexivity | apply str_digits].
Qed.

(** ** The classifier *)

Lemma supported_types (t : N) :
  (t =? Dns.AAAA) || (t =? Dns.A) || (t =? Dns.TXT) || (t =? Dns.NS)
  || (t =? Dns.SRV) || (t =? Dns.SOA) = true
  <-> In t [Dns.A; Dns.AAAA; Dns.TXT; Dns.NS; Dns.SRV; Dns.SOA].
Proof.
  rewrite !orb_true_iff, !N.eqb_eq. cbn [In]. intuition congruence.
Qed.

(** [should_answer] in terms of its two tests: the record type is one of
    the six supported ones, and the name passes the code's own comparison
    with [self.mydomain] or, for a SERVICE question, with
    [self.mysrvdomain].  Whether the first comparison can succeed at all
    depends on what [__init__] stored (see the dotless domain below). *)
Theorem classifier_answers_iff (self : Nameserver) (question : Dns.Question) :
  should_answer self question = true <->
  In (Dns.rdtype question) [Dns.A; Dns.AAAA; Dns.TXT; Dns.NS; Dns.SRV; Dns.SOA]
  /\ (name_is_mydomain self (Dns.name question) = true
      \/ (Dns.rdtype question = Dns.SRV
          /\ Dns.Name_eqb (Dns.name question) (mysrvdomain self) = true)).
Proof.
  unfold should_answer, ismydomainname.
  rewrite andb_true_iff, supported_types, orb_true_iff, andb_true_iff, N.eqb_eq.
  reflexivity.
Qed.

(** When [__init__] kept the domain as a bare string (no inner dot), no
    name equals it, and only SERVICE questions for the service-discovery
    subdomain are answered. *)
Lemma bare_domain_answers_only_service (self : Nameserver)
    (domain : string) (question : Dns.Question) :
  mydomain self = inr domain ->
  should_answer self question = true ->
  Dns.rdtype question = Dns.SRV
  /\ Dns.Name_eqb (Dns.name question) (mysrvdomain self) = true.
Proof.
  intros Hbare Hq. unfold should_answer, ismydomainname, name_is_mydomain in Hq.
  rewrite Hbare in Hq. cbn [orb] in Hq.
  apply andb_true_iff in Hq. destruct Hq as [_ Hq].
  apply andb_true_iff in Hq. destruct Hq as [Ht Hn].
  split; [now apply N.eqb_eq | exact Hn].
Qed.

(** ** The dispatcher *)

Lemma answer_question_AAAA (self : Nameserver) (question : Dns.Question) :
  Dns.rdtype question = Dns.AAAA ->
  answer_question self question = Ok ("QR", "").
Proof.
  intros Ht. unfold answer_question. now rewrite Ht.
Qed.

Lemma answer_question_A (self : Nameserver) (question : Dns.Question) :
  Dns.rdtype question = Dns.A ->
  answer_question self question
  = Ok ("QR AA",
        flat (map (fun peer => render_record
                                 (plain_record question "A" (addr peer)))
                (replicas self))).
Proof.
  intros Ht. unfold answer_question. rewrite Ht. cbn [N.eqb Dns.A Dns.AAAA Pos.eqb].
  rewrite (accumulate_flat _
             (fun a => render_record (plain_record question "A" a)))
    by (intros; now apply create_answer_section_A).
  unfold aresponse, get_addresses. rewrite map_map. reflexivity.
Qed.

Lemma answer_question_NS (self : Nameserver) (question : Dns.Question) :
  Dns.rdtype question = Dns.NS ->
  answer_question self question
  = Ok ("QR AA",
        flat (map (fun a => render_record (plain_record question "NS" a))
                (nsresponse self))).
Proof.
  intros Ht. unfold answer_question. rewrite Ht. cbn [N.eqb Dns.NS Dns.A Dns.TXT Dns.AAAA Pos.eqb].
  rewrite (accumulate_flat _
             (fun a => render_record (plain_record question "NS" a)))
    by (intros; now apply create_answer_section_NS).
  reflexivity.
Qed.

Lemma answer_question_TXT (self : Nameserver) (question : Dns.Question) :
  Dns.rdtype question = Dns.TXT ->
  answer_question self question
  = Ok ("QR AA",
        render_record
          (plain_record question "TXT"
             (Py.dquote ++ Py.join ";" (map segment (replicas self))
              ++ Py.dquote))).
Proof.
  intros Ht. unfold answer_question. rewrite Ht. cbn [N.eqb Dns.TXT Dns.A Dns.AAAA Pos.eqb].
  rewrite create_answer_section_TXT by exact Ht.
  now rewrite txtresponse_join.
Qed.

Lemma answer_question_SRV (self : Nameserver) (question : Dns.Question) :
  Dns.rdtype question = Dns.SRV ->
  answer_question self question
  = Ok ("QR AA",
        flat (map (fun pair => render_service
                                 (service_record question (ipconverter self) pair))
                (get_addressportpairs (replicas self)))).
Proof.
  intros Ht. unfold answer_question. rewrite Ht.
  cbn [N.eqb Dns.SRV Dns.SOA Dns.NS Dns.TXT Dns.A Dns.AAAA Pos.eqb].
  rewrite (accumulate_flat _
             (fun ap => render_service (service_record question "" ap))).
  - unfold srvresponse. rewrite map_map. cbn [append bind].
    do 3 f_equal. apply map_ext. intros [a p].
    unfold service_record. cbn [fst snd]. now rewrite append_nil_r.
  - intros [target p] _. cbn [fst snd].
    now apply create_srv_answer_section_line.
Qed.

Lemma answer_question_SOA (self : Nameserver) (question : Dns.Question) :
  Dns.rdtype question = Dns.SOA ->
  exists answerstr, answer_question self question = Ok ("QR AA", answerstr).
Proof.
  intros Ht. unfold answer_question, create_soa_answer_section. rewrite Ht.
  eexists. reflexivity.
Qed.

(** The dispatcher raises nothing, whatever the question. *)
Lemma answer_question_total (self : Nameserver) (question : Dns.Question) :
  exists flagstr answerstr,
    answer_question self question = Ok (flagstr, answerstr)
    /\ (flagstr = if Dns.rdtype question =? Dns.AAAA then "QR" else "QR AA").
Proof.
  destruct (N.eq_dec (Dns.rdtype question) Dns.AAAA) as [Ht|Hn6].
  { rewrite (answer_question_AAAA _ _ Ht), Ht. now eexists _, _. }
  destruct (N.eq_dec (Dns.rdtype question) Dns.A) as [Ht|Hn1].
  { rewrite (answer_question_A _ _ Ht), Ht. now eexists _, _. }
  destruct (N.eq_dec (Dns.rdtype question) Dns.TXT) as [Ht|Hn2].
  { rewrite (answer_question_TXT _ _ Ht), Ht. now eexists _, _. }
  destruct (N.eq_dec (Dns.rdtype question) Dns.NS) as [Ht|Hn3].
  { rewrite (answer_question_NS _ _ Ht), Ht. now eexists _, _. }
  destruct (N.eq_dec (Dns.rdtype question) Dns.SOA) as [Ht|Hn4].
  { destruct (answer_question_SOA self _ Ht) as [a Ha].
    rewrite Ha, Ht. now eexists _, _. }
  destruct (N.eq_dec (Dns.rdtype question) Dns.SRV) as [Ht|Hn5].
  { rewrite (answer_question_SRV _ _ Ht), Ht. now eexists _, _. }
  unfold answer_question.
  apply N.eqb_neq in Hn1, Hn2, Hn3, Hn4, Hn5, Hn6.
  rewrite Hn1, Hn2, Hn3, Hn4, Hn5, Hn6. now eexists _, _.
Qed.

(** ** The query loop *)

Lemma message_id_response_text (id : N) (flags question answer : string) :
  Dns.message_id (Dns.from_text (response_text id flags question answer))
  = Ok id.
Proof.
  unfold response_text, response_header. apply message_id_header.
Qed.

Lemma handle_questions_step (self : Nameserver) (q : Dns.Question)
    (rest : list Dns.Question) (response : Dns.Message) (id : N) :
  should_answer self q = true ->
  Dns.message_id response = Ok id ->
  exists flagstr answerstr,
    answer_question self q = Ok (flagstr, answerstr)
    /\ handle_questions self (q :: rest) response
       = handle_questions self rest
           (Dns.from_text
              (response_text id flagstr (Dns.question_to_text q) answerstr)).
Proof.
  intros Hq Hid.
  destruct (answer_question_total self q) as (f & a & Ha & _).
  exists f, a. split; [exact Ha|].
  cbn [handle_questions]. rewrite Hq, Ha. cbn [bind fst snd].
  rewrite Hid. cbn [bind]. rewrite create_response_query. reflexivity.
Qed.

(** When every question passes the classifier, the message sent is the
    skeleton (no question at all) or the reply built for the last one. *)
Lemma handle_questions_answerable (self : Nameserver)
    (qs : list Dns.Question) (response : Dns.Message) (id : N) :
  forallb (should_answer self) qs = true ->
  Dns.message_id response = Ok id ->
  match List.last (map Some qs) None with
  | None => qs = [] /\ handle_questions self qs response = Ok (Some response)
  | Some q =>
      exists flagstr answerstr,
        answer_question self q = Ok (flagstr, answerstr)
        /\ handle_questions self qs response
           = Ok (Some (Dns.from_text
                         (response_text id flagstr (Dns.question_to_text q)
                            answerstr)))
  end.
Proof.
  revert response.
  induction qs as [|q rest IH]; intros response Hall Hid.
  - cbn. split; reflexivity.
  - cbn [forallb] in Hall. apply andb_true_iff in Hall. destruct Hall as [Hq Hrest].
    destruct (handle_questions_step self q rest response id Hq Hid)
      as (f & a & Ha & Hstep).
    rewrite Hstep.
    specialize (IH _ Hrest
                  (message_id_response_text id f (Dns.question_to_text q) a)).
    destruct rest as [|q' rest'].
    + cbn. exists f, a. split; [exact Ha | reflexivity].
    + change (List.last (map Some (q :: q' :: rest')) None)
        with (List.last (map Some (q' :: rest')) None).
      destruct (List.last (map Some (q' :: rest')) None).
      * exact IH.
      * destruct IH as [Hnil _]. discriminate.
Qed.

(** One question that fails the classifier ends the call with nothing
    sent. *)
Lemma handle_questions_dropped (self : Nameserver)
    (qs : list Dns.Question) (response : Dns.Message) (id : N) :
  forallb (should_answer self) qs = false ->
  Dns.message_id response = Ok id ->
  handle_questions self qs response = Ok None.
Proof.
  revert response.
  induction qs as [|q rest IH]; intros response Hsome Hid;
    [discriminate|].
  cbn [forallb] in Hsome.
  destruct (should_answer self q) eqn:Hq.
  - destruct (handle_questions_step self q rest response id Hq Hid)
      as (f & a & _ & Hstep).
    rewrite Hstep.
    apply IH; [exact Hsome | apply message_id_response_text].
  - cbn [handle_questions]. now rewrite Hq.
Qed.

Lemma handle_query_single (self : Nameserver) (id : N) (q : Dns.Question)
    (flagstr answerstr : string) :
  should_answer self q = true ->
  answer_question self q = Ok (flagstr, answerstr) ->
  handle_query self (single id q)
  = Ok (Some (Dns.from_text
                (response_text id flagstr (Dns.question_to_text q) answerstr))).
Proof.
  intros Hq Ha. unfold handle_query, single. cbn [Dns.question].
  destruct (handle_questions_step self q []
              (Dns.make_response {| Dns.id := id; Dns.question := [q] |})
              id Hq eq_refl) as (f & a & Ha' & Hstep).
  rewrite Hstep. rewrite Ha in Ha'. injection Ha' as <- <-. reflexivity.
Qed.

Lemma forallb_filter_id {X : Type} (p : X -> bool) (xs : list X) :
  forallb p xs = true -> filter p xs = xs.
Proof.
  induction xs as [|x rest IH]; cbn [forallb filter]; [reflexivity|].
  intros H. apply andb_true_iff in H. destruct H as [Hx Hrest].
  now rewrite Hx, IH.
Qed.

Lemma forallb_false_witness {X : Type} (p : X -> bool) (xs : list X) :
  forallb p xs = false <-> exists x, In x xs /\ p x = false.
Proof.
  induction xs as [|x rest IH]; cbn [forallb In].
  - split; [discriminate | intros (x & [] & _)].
  - rewrite andb_false_iff, IH. split.
    + intros [Hx | (y & Hy & Hp)]; [exists x | exists y]; auto.
    + intros (y & [-> | Hy] & Hp); [left | right; exists y]; auto.
Qed.

(** A call of [handle_query] sends a message or drops the query; it
    raises nothing. *)
Lemma response_sent_or_dropped (self : Nameserver) (query : Dns.Query) :
  (exists m, handle_query self query = Ok (Some m))
  \/ handle_query self query = Ok None.
Proof.
  unfold handle_query.
  destruct (forallb (should_answer self) (Dns.question query)) eqn:Hall.
  - left.
    pose proof (handle_questions_answerable self (Dns.question query)
                  (Dns.make_response query) (Dns.id query) Hall eq_refl) as Hsent.
    destruct (List.last (map Some (Dns.question query)) None).
    + destruct Hsent as (f & a & _ & ->). now eexists.
    + destruct Hsent as [_ ->]. now eexists.
  - right. exact (handle_questions_dropped self (Dns.question query)
             (Dns.make_response query) (Dns.id query) Hall eq_refl).
Qed.

(** ** What a query gets back *)

(** C1 (amended): a response is sent exactly when every question of the
    query passes the classifier; one question that is out of scope or of
    an unsupported type makes the call return with nothing sent, whatever
    the other questions are. *)
Theorem response_sent_iff_all_answerable (self : Nameserver)
    (query : Dns.Query) :
  (handle_query self query = Ok None
   <-> exists q, In q (Dns.question query) /\ should_answer self q = false)
  /\ ((exists m, handle_query self query = Ok (Some m))
      <-> forall q, In q (Dns.question query) -> should_answer self q = true).
Proof.
  unfold handle_query.
  destruct (forallb (should_answer self) (Dns.question query)) eqn:Hall.
  - pose proof (handle_questions_answerable self (Dns.question query)
                  (Dns.make_response query) (Dns.id query) Hall eq_refl) as Hsent.
    assert (Hm : exists m, handle_questions self (Dns.question query)
                             (Dns.make_response query) = Ok (Some m)).
    { destruct (List.last (map Some (Dns.question query)) None).
      - destruct Hsent as (f & a & _ & ->). now eexists.
      - destruct Hsent as [_ ->]. now eexists. }
    destruct Hm as [m Hm]. rewrite Hm.
    rewrite forallb_forall in Hall. split; split.
    + discriminate.
    + intros (q & Hin & Hq). rewrite (Hall q Hin) in Hq. discriminate.
    + intros _. exact Hall.
    + intros _. now exists m.
  - rewrite (handle_questions_dropped self (Dns.question query)
             (Dns.make_response query) (Dns.id query) Hall eq_refl).
    apply forallb_false_witness in Hall. split; split.
    + intros _. exact Hall.
    + reflexivity.
    + intros [m Hm]. discriminate.
    + intros Hyes. destruct Hall as (q & Hin & Hq).
      rewrite (Hyes q Hin) in Hq. discriminate.
Qed.

(** C7: for an answerable question, ADDRESS6 gives a reply with the flags
    QR and no answer record: the text ends after the question section.
    Every other answerable type gives the flags QR AA. *)
Theorem flags_by_record_type (self : Nameserver) (id : N)
    (question : Dns.Question) :
  should_answer self question = true ->
  (Dns.rdtype question = Dns.AAAA ->
     answer_question self question = Ok ("QR", "")
     /\ handle_query self (single id question)
        = Ok (Some (Dns.from_text
                      (response_header id "QR"
                         (Dns.question_to_text question)))))
  /\ (Dns.rdtype question <> Dns.AAAA ->
      exists answerstr,
        answer_question self question = Ok ("QR AA", answerstr)
        /\ handle_query self (single id question)
           = Ok (Some (Dns.from_text
                         (response_text id "QR AA"
                            (Dns.question_to_text question) answerstr)))).
Proof.
  intros Hq. split; intros Ht.
  - pose proof (answer_question_AAAA self question Ht) as Ha.
    split; [exact Ha|].
    rewrite (handle_query_single self id question _ _ Hq Ha).
    unfold response_text, emitted_sections.
    cbn [filter snd String.eqb negb map flat]. now rewrite append_nil_r.
  - destruct (answer_question_total self question) as (f & a & Ha & Hf).
    apply N.eqb_neq in Ht. rewrite Ht in Hf. subst f.
    exists a. split; [exact Ha|].
    exact (handle_query_single self id question _ _ Hq Ha).
Qed.

(** C9: when a query holds two or more answerable questions, the message
    sent is the reply built for the last answerable question alone: it is
    the very message a query with that one question gets, so what was
    built for the earlier questions is gone.  (A message is sent when
    every question is answerable.) *)
Theorem last_answerable_question_wins (self : Nameserver)
    (query : Dns.Query) :
  (2 <= List.length (answerable self (Dns.question query)))%nat ->
  (forallb (should_answer self) (Dns.question query) = true ->
     exists m, handle_query self query = Ok (Some m))
  /\ (forall m, handle_query self query = Ok (Some m) ->
       exists q flagstr answerstr,
         last_answerable self (Dns.question query) = Some q
         /\ answer_question self q = Ok (flagstr, answerstr)
         /\ m = Dns.from_text
                  (response_text (Dns.id query) flagstr
                     (Dns.question_to_text q) answerstr)
         /\ handle_query self (single (Dns.id query) q) = Ok (Some m)).
Proof.
  intros Htwo. unfold handle_query at 1 2.
  destruct (forallb (should_answer self) (Dns.question query)) eqn:Hall.
  - pose proof (handle_questions_answerable self (Dns.question query)
                  (Dns.make_response query) (Dns.id query) Hall eq_refl) as Hsent.
    unfold last_answerable, answerable in *.
    rewrite (forallb_filter_id _ _ Hall) in *.
    destruct (List.last (map Some (Dns.question query)) None) as [q|] eqn:Hlast.
    + destruct Hsent as (f & a & Ha & Hsent). rewrite Hsent. split.
      * intros _. now eexists.
      * intros m Hm. injection Hm as <-. exists q, f, a.
        repeat split; try assumption.
        apply handle_query_single; [|exact Ha].
        assert (Hin : In q (Dns.question query)).
        { assert (Hne : map Some (Dns.question query) <> []).
          { destruct (Dns.question query); [simpl in Htwo; lia | discriminate]. }
          destruct (exists_last Hne) as (front & x & Hx).
          rewrite Hx, last_last in Hlast. subst x.
          assert (Hs : In (Some q) (map Some (Dns.question query)))
            by (rewrite Hx; apply in_or_app; right; left; reflexivity).
          apply in_map_iff in Hs. destruct Hs as (q0 & [= ->] & Hq0).
          exact Hq0. }
        rewrite forallb_forall in Hall. now apply Hall.
    + destruct Hsent as [Hnil _]. rewrite Hnil in Htwo. simpl in Htwo. lia.
  - rewrite (handle_questions_dropped self (Dns.question query)
             (Dns.make_response query) (Dns.id query) Hall eq_refl).
    split; [discriminate | intros m Hm; discriminate].
Qed.

(** C10: [create_answer_section] assigns its payload exactly for the types
    ADDRESS, TEXT and NAME_SERVER, and for these it returns a line; for any
    other type the payload stays unassigned and the call raises.  No call
    of [handle_query] raises, so the dispatcher never reaches the
    unassigned branch. *)
Theorem unassigned_payload_unreachable :
  (forall question address txt,
     answer_section_resp question address txt = None
     <-> ~ In (Dns.rdtype question) [Dns.A; Dns.TXT; Dns.NS])
  /\ (forall question address txt,
        In (Dns.rdtype question) [Dns.A; Dns.TXT; Dns.NS] ->
        exists line, create_answer_section question 30 1 address txt = Ok line)
  /\ (forall question address txt,
        ~ In (Dns.rdtype question) [Dns.A; Dns.TXT; Dns.NS] ->
        exists e, create_answer_section question 30 1 address txt = Raise e)
  /\ (forall (self : Nameserver) query,
        exists sent, handle_query self query = Ok sent).
Proof.
  assert (Hresp : forall question address txt,
            answer_section_resp question address txt = None
            <-> ~ In (Dns.rdtype question) [Dns.A; Dns.TXT; Dns.NS]).
  { intros question address txt. unfold answer_section_resp. cbn [In].
    destruct (N.eqb_spec (Dns.rdtype question) Dns.A);
      [split; [discriminate | intuition congruence]|].
    destruct (N.eqb_spec (Dns.rdtype question) Dns.TXT);
      [split; [discriminate | intuition congruence]|].
    destruct (N.eqb_spec (Dns.rdtype question) Dns.NS);
      [split; [discriminate | intuition congruence]|].
    split; [intuition congruence | reflexivity]. }
  split; [exact Hresp|]. split; [|split].
  - intros question address txt Hin.
    unfold create_answer_section.
    destruct (answer_section_resp question address txt) as [r|] eqn:Hr.
    + cbn [In] in Hin.
      destruct Hin as [<- | [<- | [<- | []]]]; eexists; reflexivity.
    + apply Hresp in Hr. contradiction.
  - intros question address txt Hout.
    apply (Hresp question address txt) in Hout.
    unfold create_answer_section. rewrite Hout.
    change (Py.index RRCLASS 1) with (@Ok string "IN"). cbn [bind].
    destruct (Py.index RRTYPE (Dns.rdtype question));
      eexists; reflexivity.
  - intros self query.
    destruct (response_sent_or_dropped self query) as [[m ->] | ->];
      eexists; reflexivity.
Qed.

(** ** What each record type answers *)

Lemma Nameserver_init_fields (domain : string) (view : list Replica)
    (today : string) (self : Nameserver) :
  Nameserver_init domain view today = Ok self ->
  ipconverter self = ".ipaddr." ++ domain ++ "."
  /\ replicas self = view
  /\ revision self = today ++ "00".
Proof.
  unfold Nameserver_init. intros H.
  destruct (match Py.find "." domain with
            | Some (S _) =>
                n <- Dns.Name_new (Py.split "." (domain ++ ".")) ;; Ok (inl n)
            | _ => Ok (inr domain)
            end) as [d|]; [|discriminate].
  cbn [bind] in H.
  destruct (Dns.Name_new (Py.split "." (SRVNAME ++ domain ++ ".")));
    [|discriminate].
  cbn [bind] in H. injection H as <-. repeat split.
Qed.


(** C6: a nameserver built for [domain] answers an answerable SERVICE query
    with one record per (address, port) pair of the view, each with the
    queried name as owner, priority 0, weight 100, the pair's port, and as
    target the address followed by ".ipaddr.<domain>.". *)
Theorem service_records_per_pair (domain : string) (view : list Replica)
    (today : string) (self : Nameserver) (id : N) (question : Dns.Question) :
  Nameserver_init domain view today = Ok self ->
  should_answer self question = true ->
  Dns.rdtype question = Dns.SRV ->
  handle_query self (single id question)
  = Ok (Some (Dns.from_text
                (response_text id "QR AA" (Dns.question_to_text question)
                   (flat (map (fun pair =>
                                 render_service
                                   {| srv_owner :=
                                        Dns.name_to_text (Dns.name question);
                                      srv_ttl := 30;
                                      srv_priority := 0;
                                      srv_weight := 100;
                                      srv_port := snd pair;
                                      srv_target :=
                                        fst pair ++ ".ipaddr." ++ domain ++ "." |})
                            (get_addressportpairs view)))))).
Proof.
  intros Hinit Hq Ht.
  destruct (Nameserver_init_fields _ _ _ _ Hinit) as (Hip & Hview & _).
  apply handle_query_single; [exact Hq|].
  rewrite (answer_question_SRV self question Ht), Hip, Hview.
  reflexivity.
Qed.

(** C4 (amended): an answerable TEXT query is answered with exactly one
    record; its payload is the segments "<role-name> <address>:<port>" of
    the replicas, in view order, joined by ';' with no trailing semicolon
    (the empty string for an empty view).  For a view that is not empty and
    whose role names and addresses hold no ';', splitting the payload on ';'
    gives back exactly these segments, one per replica. *)
Theorem text_record_joins_segments (self : Nameserver) (id : N)
    (question : Dns.Question) :
  should_answer self question = true ->
  Dns.rdtype question = Dns.TXT ->
  handle_query self (single id question)
  = Ok (Some (Dns.from_text
                (response_text id "QR AA" (Dns.question_to_text question)
                   (render_record
                      {| owner := Dns.name_to_text (Dns.name question);
                         ttl := 30; rclass := "IN"; rtype := "TXT";
                         payload := Py.dquote ++ txtresponse self
                                    ++ Py.dquote |}))))
  /\ txtresponse self = Py.join ";" (map segment (replicas self))
  /\ (replicas self <> [] ->
      Forall (fun peer => has_char ";" (node_names (type peer)) = false
                          /\ has_char ";" (addr peer) = false)
        (replicas self) ->
      Py.split ";" (txtresponse self) = map segment (replicas self)).
Proof.
  intros Hq Ht. split; [|split].
  - apply handle_query_single; [exact Hq|].
    rewrite (answer_question_TXT self question Ht), <- txtresponse_join.
    reflexivity.
  - apply txtresponse_join.
  - intros Hne Hclean. rewrite txtresponse_join.
    apply (split_join ";").
    + destruct (replicas self); [congruence | discriminate].
    + apply Forall_forall. intros seg Hseg. apply in_map_iff in Hseg.
      destruct Hseg as (peer & <- & Hpeer).
      rewrite Forall_forall in Hclean. destruct (Hclean peer Hpeer).
      now apply segment_without_semicolon.
Qed.

(** ** The response builder *)

(** C8: the built text is the header lines (id, opcode, rcode, flags) and
    the question section, followed by the sections among answer, authority
    and additional whose content is not empty, in this order; a section
    with empty content contributes nothing, not even its header line. *)
Theorem empty_sections_are_omitted
    (id opcode rcode : N) (flags question answer authority additional : string)
    (opcode_s rcode_s : string) :
  nth_error OPCODES (N.to_nat opcode) = Some opcode_s ->
  nth_error RCODES (N.to_nat rcode) = Some rcode_s ->
  exists body,
    create_response id opcode rcode flags question answer authority additional
    = Ok (header_text id opcode_s rcode_s flags question ++ body)
    /\ body = flat (map render_section
                      (emitted_sections
                         [(";ANSWER", answer); (";AUTHORITY", authority);
                          (";ADDITIONAL", additional)]))
    /\ body = (if String.eqb answer "" then ""
               else ";ANSWER" ++ Py.nl ++ answer ++ Py.nl)
              ++ (if String.eqb authority "" then ""
                  else ";AUTHORITY" ++ Py.nl ++ authority ++ Py.nl)
              ++ (if String.eqb additional "" then ""
                  else ";ADDITIONAL" ++ Py.nl ++ additional ++ Py.nl)
    /\ (answer = "" -> authority = "" -> additional = "" -> body = "").
Proof.
  intros Hop Hrc. eexists. split; [|split; [|split]].
  - now apply create_response_sections.
  - reflexivity.
  - unfold emitted_sections, render_section. cbn [filter snd].
    destruct (String.eqb answer ""), (String.eqb authority ""),
      (String.eqb additional "");
      cbn [negb map flat fst snd]; rewrite ?append_assoc, ?append_nil_r;
      reflexivity.
  - intros -> -> ->. reflexivity.
Qed.

(** ** The zone revision *)

Lemma two_digit_serial (n : N) :
  n < 100 ->
  String.length (Py.zfill 2 (Py.str n)) = 2%nat
  /\ Py.int (Py.zfill 2 (Py.str n)) = Ok n.
Proof.
  intros Hn.
  assert (Hall : forallb two_digit_ok (map N.of_nat (seq 0 100)) = true)
    by (vm_compute; reflexivity).
  rewrite forallb_forall in Hall.
  assert (Hin : In n (map N.of_nat (seq 0 100))).
  { apply in_map_iff. exists (N.to_nat n). split; [apply N2Nat.id|].
    apply in_seq. lia. }
  specialize (Hall n Hin). unfold two_digit_ok in Hall.
  apply andb_true_iff in Hall. destruct Hall as [Hlen Hint].
  split; [now apply Nat.eqb_eq|].
  destruct (Py.int (Py.zfill 2 (Py.str n))); [|discriminate].
  apply N.eqb_eq in Hint. now subst.
Qed.

Lemma last_two_append (day digits : string) :
  String.length digits = 2%nat -> Py.last_two (day ++ digits) = Ok digits.
Proof.
  intros Hlen. unfold Py.last_two. rewrite length_append, Hlen.
  replace (String.length day + 2 <? 2)%nat with false
    by (symmetry; apply Nat.ltb_ge; lia).
  replace (String.length day + 2 - 2)%nat with (String.length day) by lia.
  rewrite substring_skip, <- Hlen. now rewrite substring_all.
Qed.

(** On the day of the stored revision, a serial below 100 is replaced by
    its successor. *)
Lemma update_same_day (today : string) (n : N) (self : Nameserver) :
  revision self = today ++ Py.zfill 2 (Py.str n) ->
  n < 100 ->
  update today today self
  = Ok (set_revision self (today ++ Py.zfill 2 (Py.str (n + 1)))).
Proof.
  intros Hrev Hn. destruct (two_digit_serial n Hn) as [Hlen Hint].
  unfold update. rewrite Hrev, contains_append, (last_two_append _ _ Hlen).
  cbn [bind]. rewrite Hint. reflexivity.
Qed.

(** A day that does not occur in the stored revision resets it. *)
Lemma update_other_day (today : string) (self : Nameserver) :
  Py.contains today (revision self) = false ->
  update today today self = Ok (set_revision self (today ++ "00")).
Proof.
  intros Hday. unfold update. now rewrite Hday.
Qed.

(** Below the hundredth call of a day the serial counts the calls. *)
Lemma updates_count (today : string) (n : nat) (self : Nameserver) :
  revision self = today ++ "00" ->
  (n <= 100)%nat ->
  updates n today self
  = Ok (set_revision self (today ++ Py.zfill 2 (Py.str (N.of_nat n)))).
Proof.
  intros Hrev. induction n as [|n IH]; intros Hn; cbn [updates].
  - change (Py.zfill 2 (Py.str (N.of_nat 0))) with "00".
    unfold set_revision. rewrite <- Hrev. now destruct self.
  - rewrite IH by lia. cbn [bind].
    rewrite (update_same_day today (N.of_nat n)) by (reflexivity || lia).
    unfold set_revision. cbn [ipconverter mydomain mysrvdomain replicas].
    replace (N.of_nat n + 1) with (N.of_nat (S n)) by lia. reflexivity.
Qed.

(** * Further properties of the code *)

(** ** Replies *)

Lemma response_text_without_answer (id : N) (flags question : string) :
  response_text id flags question "" = response_header id flags question.
Proof.
  unfold response_text, emitted_sections.
  cbn [filter snd String.eqb negb map flat]. apply append_nil_r.
Qed.

(** X1: a message that [handle_query] sends carries the id of the query,
    whether it is the skeleton (a query without questions) or was read back
    from the text built for the last question. *)
Theorem sent_response_keeps_query_id (self : Nameserver) (query : Dns.Query)
    (m : Dns.Message) :
  handle_query self query = Ok (Some m) ->
  Dns.message_id m = Ok (Dns.id query).
Proof.
  unfold handle_query. intros Hsent.
  destruct (forallb (should_answer self) (Dns.question query)) eqn:Hall.
  - pose proof (handle_questions_answerable self (Dns.question query)
                  (Dns.make_response query) (Dns.id query) Hall eq_refl) as H.
    destruct (List.last (map Some (Dns.question query)) None).
    + destruct H as (f & a & _ & H). rewrite H in Hsent.
      injection Hsent as <-. apply message_id_response_text.
    + destruct H as [_ H]. rewrite H in Hsent. injection Hsent as <-.
      reflexivity.
  - rewrite (handle_questions_dropped self (Dns.question query)
               (Dns.make_response query) (Dns.id query) Hall eq_refl) in Hsent.
    discriminate.
Qed.

(** X2: over an empty view an answerable ADDRESS, NAME_SERVER or SERVICE
    question is still answered, with the flags QR AA, but the text has no
    answer section at all: it ends after the question section. *)
Theorem empty_view_reply_has_no_answer_section (self : Nameserver) (id : N)
    (question : Dns.Question) :
  replicas self = [] ->
  should_answer self question = true ->
  In (Dns.rdtype question) [Dns.A; Dns.NS; Dns.SRV] ->
  handle_query self (single id question)
  = Ok (Some (Dns.from_text
                (response_header id "QR AA" (Dns.question_to_text question)))).
Proof.
  intros Hview Hq Ht. rewrite <- response_text_without_answer.
  apply handle_query_single; [exact Hq|].
  cbn [In] in Ht. destruct Ht as [Ht | [Ht | [Ht | []]]]; symmetry in Ht.
  - rewrite (answer_question_A self question Ht), Hview. reflexivity.
  - rewrite (answer_question_NS self question Ht). unfold nsresponse.
    rewrite Hview. reflexivity.
  - rewrite (answer_question_SRV self question Ht), Hview. reflexivity.
Qed.

(** X3: an answerable NAME_SERVER question is answered with one NS record
    per replica of the view whose type is NODE_NAMESERVER, in view order,
    and the payload of each is that replica's address. *)
Theorem name_server_records_are_addresses (self : Nameserver) (id : N)
    (question : Dns.Question) :
  should_answer self question = true ->
  Dns.rdtype question = Dns.NS ->
  exists records : list AnswerRecord,
    handle_query self (single id question)
    = Ok (Some (Dns.from_text
                  (response_text id "QR AA" (Dns.question_to_text question)
                     (flat (map render_record records)))))
    /\ map payload records
       = map addr
           (filter (fun replica =>
                      node_type_eqb (type replica) NODE_NAMESERVER)
              (replicas self))
    /\ (List.length records <= List.length (replicas self))%nat
    /\ Forall (fun r => owner r = Dns.name_to_text (Dns.name question)
                        /\ ttl r = 30 /\ rclass r = "IN" /\ rtype r = "NS")
         records.
Proof.
  intros Hq Ht.
  exists (map (fun a => plain_record question "NS" a) (nsresponse self)).
  split; [|split; [|split]].
  - rewrite map_map.
    apply handle_query_single; [exact Hq | now apply answer_question_NS].
  - rewrite map_map. unfold nsresponse. cbn [plain_record payload].
    now rewrite map_id.
  - unfold nsresponse. rewrite !length_map. apply filter_length_le.
  - apply Forall_forall. intros r Hr. apply in_map_iff in Hr.
    destruct Hr as (a & <- & _). repeat split.
Qed.

(** X4: an answerable ZONE_AUTHORITY question is answered with one SOA
    record: the domain, the contact dns-admin.<domain>, the stored revision
    and the timers 86000, 7200, 360000 and 432000. *)
Theorem zone_authority_reply (self : Nameserver) (id : N)
    (question : Dns.Question) :
  should_answer self question = true ->
  Dns.rdtype question = Dns.SOA ->
  handle_query self (single id question)
  = Ok (Some (Dns.from_text
                (response_text id "QR AA" (Dns.question_to_text question)
                   (Dns.name_to_text (Dns.name question) ++ " 30 IN SOA "
                    ++ mydomain_str self ++ " dns-admin." ++ mydomain_str self
                    ++ " (" ++ revision self
                    ++ " 86000 7200 360000 432000)")))).
Proof.
  intros Hq Ht. apply handle_query_single; [exact Hq|].
  unfold answer_question, create_soa_answer_section. rewrite Ht.
  reflexivity.
Qed.

Lemma update_sets_revision (today_test today_stamp : string)
    (self self' : Nameserver) :
  update today_test today_stamp self = Ok self' ->
  exists r, self' = set_revision self r.
Proof.
  unfold update. intros H.
  destruct (Py.contains today_test (revision self)).
  - destruct (Py.last_two (revision self)); [|discriminate]. cbn [bind] in H.
    destruct (Py.int a); [|discriminate]. cbn [bind] in H.
    injection H as <-. now eexists.
  - injection H as <-. now eexists.
Qed.

(** X5: [update] touches the revision only: the view is kept, the
    classifier decides every question as before, and the dispatcher's
    answer to every question other than ZONE_AUTHORITY is unchanged. *)
Theorem update_changes_zone_authority_only (today_test today_stamp : string)
    (self self' : Nameserver) :
  update today_test today_stamp self = Ok self' ->
  replicas self' = replicas self
  /\ (forall question,
        should_answer self' question = should_answer self question)
  /\ (forall question,
        Dns.rdtype question <> Dns.SOA ->
        answer_question self' question = answer_question self question).
Proof.
  intros Hup. destruct (update_sets_revision _ _ _ _ Hup) as [r ->].
  split; [reflexivity|]. split; [reflexivity|].
  intros question Hsoa. unfold answer_question.
  apply N.eqb_neq in Hsoa. rewrite Hsoa. reflexivity.
Qed.

(** ** The revision over runs of [update] *)

Lemma all_digits_append (a b : string) :
  all_digits (a ++ b) = all_digits a && all_digits b.
Proof.
  induction a as [|x a IH]; cbn [append all_digits]; [reflexivity|].
  rewrite IH. apply andb_assoc.
Qed.

Lemma uint_of_digits (s : string) :
  all_digits s = true -> exists d, NilEmpty.uint_of_string s = Some d.
Proof.
  induction s as [|a s IH]; cbn [all_digits NilEmpty.uint_of_string]; intros H.
  - now eexists.
  - apply andb_true_iff in H. destruct H as [Ha Hs].
    destruct (IH Hs) as [d ->].
    destruct a as [[] [] [] [] [] [] [] []]; try discriminate Ha;
      eexists; reflexivity.
Qed.

Lemma int_of_digits (s : string) :
  s <> "" -> all_digits s = true -> exists k, Py.int s = Ok k.
Proof.
  intros Hne Hs. destruct (uint_of_digits s Hs) as [d Hd].
  unfold Py.int. destruct s; [congruence|]. rewrite Hd. now eexists.
Qed.

Lemma last_two_chars (s : string) :
  (2 <= String.length s)%nat ->
  exists front digits, s = front ++ digits /\ String.length digits = 2%nat.
Proof.
  induction s as [|a s IH]; cbn [String.length]; intros Hlen; [lia|].
  destruct (Nat.eq_dec (String.length s) 1) as [Hone|Hmore].
  - exists "", (String a s). split; [reflexivity|]. cbn [String.length]. lia.
  - destruct IH as (front & digits & -> & Hd); [lia|].
    exists (String a front), digits. split; [reflexivity | exact Hd].
Qed.

Lemma zfill_two_digits (k : N) :
  (2 <= String.length (Py.zfill 2 (Py.str k)))%nat
  /\ all_digits (Py.zfill 2 (Py.str k)) = true.
Proof.
  pose proof (str_nonempty k) as Hne. pose proof (str_digits k) as Hd.
  unfold Py.zfill. destruct (Py.str k) as [|a [|b s]]; [congruence| |].
  - split; [cbn; lia | exact Hd].
  - split; [cbn; lia | exact Hd].
Qed.

Lemma stamped_revision_ends_in_digits (stamp : string) (k : N) :
  ends_in_two_digits (stamp ++ Py.zfill 2 (Py.str k)) = true.
Proof.
  destruct (zfill_two_digits k) as [Hlen Hd].
  destruct (last_two_chars _ Hlen) as (front & digits & Hz & Hlen2).
  rewrite Hz in *. rewrite <- append_assoc.
  unfold ends_in_two_digits. rewrite (last_two_append _ _ Hlen2).
  rewrite all_digits_append in Hd. now apply andb_true_iff in Hd.
Qed.

Lemma update_from_digits (today_test today_stamp : string)
    (self : Nameserver) :
  ends_in_two_digits (revision self) = true ->
  exists k, update today_test today_stamp self
            = Ok (set_revision self (today_stamp ++ Py.zfill 2 (Py.str k))).
Proof.
  unfold ends_in_two_digits, update. intros Hrev.
  destruct (Py.contains today_test (revision self)); [|now exists 0].
  destruct (Py.last_two (revision self)) as [digits|] eqn:Hlast;
    [|discriminate].
  assert (Hne : digits <> "").
  { unfold Py.last_two in Hlast.
    destruct (String.length (revision self) <? 2)%nat eqn:Hlen;
      [discriminate|].
    injection Hlast as <-. apply Nat.ltb_ge in Hlen.
    destruct (last_two_chars _ Hlen) as (front & d & Hd & Hlen2).
    rewrite Hd, length_append, Hlen2.
    replace (String.length front + 2 - 2)%nat with (String.length front) by lia.
    rewrite substring_skip, <- Hlen2, substring_all.
    destruct d; [discriminate | congruence]. }
  destruct (int_of_digits digits Hne Hrev) as [k Hk].
  cbn [bind]. rewrite Hk. cbn [bind]. now exists (k + 1).
Qed.

(** X6: after [__init__], no run of [update] calls raises, whatever the
    clock reads at each call; the view is kept, and the stored revision
    always ends in two decimal digits (so the next call can read its
    serial back). *)
Theorem update_never_raises_after_init (domain : string)
    (view : list Replica) (today : string) (self : Nameserver)
    (clocks : list (string * string)) :
  Nameserver_init domain view today = Ok self ->
  exists self',
    update_all clocks self = Ok self'
    /\ replicas self' = view
    /\ ends_in_two_digits (revision self') = true.
Proof.
  intros Hinit.
  destruct (Nameserver_init_fields _ _ _ _ Hinit) as (_ & Hview & Hrev).
  assert (Hdigits : ends_in_two_digits (revision self) = true).
  { rewrite Hrev. exact (stamped_revision_ends_in_digits today 0). }
  clear Hinit Hrev. revert self Hview Hdigits.
  induction clocks as [|[today_test today_stamp] rest IH];
    intros self Hview Hdigits; cbn [update_all].
  - exists self. repeat split; assumption.
  - destruct (update_from_digits today_test today_stamp self Hdigits)
      as [k ->].
    cbn [bind]. apply IH.
    + exact Hview.
    + apply stamped_revision_ends_in_digits.
Qed.

(** X7: the first ninety-nine calls of [update] on the day of construction
    count: after [n] of them the revision is that day followed by a serial
    of exactly two characters that reads back as [n]. *)
Theorem revision_counts_same_day_updates (domain : string)
    (view : list Replica) (today : string) (self : Nameserver) (n : nat) :
  Nameserver_init domain view today = Ok self ->
  (n <= 99)%nat ->
  exists serial,
    revision_after n today self = Ok (today ++ serial)
    /\ String.length serial = 2%nat
    /\ Py.int serial = Ok (N.of_nat n).
Proof.
  intros Hinit Hn.
  destruct (Nameserver_init_fields _ _ _ _ Hinit) as (_ & _ & Hrev).
  exists (Py.zfill 2 (Py.str (N.of_nat n))).
  unfold revision_after. rewrite (updates_count today n self Hrev) by lia.
  split; [reflexivity|]. apply two_digit_serial. lia.
Qed.

(** X8: on a day that does not occur in the stored revision, the first
    call of [update] stores that day with the serial 00, and the following
    calls of that day count on from it as after construction. *)
Theorem day_rollover_restarts_serial (today : string) (self : Nameserver)
    (n : nat) :
  Py.contains today (revision self) = false ->
  (n <= 99)%nat ->
  revision_after (S n) today self
  = Ok (today ++ Py.zfill 2 (Py.str (N.of_nat n))).
Proof.
  intros Hday Hn. unfold revision_after.
  assert (Hrun : forall k, (k <= 99)%nat ->
            updates (S k) today self
            = Ok (set_revision self
                    (today ++ Py.zfill 2 (Py.str (N.of_nat k))))).
  { induction k as [|k IHk]; intros Hk.
    - cbn [updates bind]. now apply update_other_day.
    - change (updates (S (S k)) today self)
        with (self' <- updates (S k) today self ;; update today today self').
      rewrite IHk by lia. cbn [bind].
      rewrite (update_same_day today (N.of_nat k)) by (reflexivity || lia).
      unfold set_revision. cbn [ipconverter mydomain mysrvdomain replicas].
      replace (N.of_nat k + 1) with (N.of_nat (S k)) by lia. reflexivity. }
  rewrite (Hrun n Hn). reflexivity.
Qed.

(** X9: the ZONE_AUTHORITY reply follows the revision: after [n] calls of
    [update] on the day of construction (at most ninety-nine), the SOA
    record shows that day followed by the two-digit serial [n]. *)
Theorem zone_authority_follows_updates (domain : string)
    (view : list Replica) (today : string) (self : Nameserver) (n : nat)
    (id : N) (question : Dns.Question) :
  Nameserver_init domain view today = Ok self ->
  (n <= 99)%nat ->
  should_answer self question = true ->
  Dns.rdtype question = Dns.SOA ->
  exists self',
    updates n today self = Ok self'
    /\ revision self' = today ++ Py.zfill 2 (Py.str (N.of_nat n))
    /\ mydomain_str self' = mydomain_str self
    /\ handle_query self' (single id question)
       = Ok (Some (Dns.from_text
                     (response_text id "QR AA" (Dns.question_to_text question)
                        (zone_authority_line self' question)))).
Proof.
  intros Hinit Hn Hq Ht.
  destruct (Nameserver_init_fields _ _ _ _ Hinit) as (_ & _ & Hrev).
  eexists. split; [apply (updates_count today n self Hrev); lia|].
  split; [reflexivity|]. split; [reflexivity|].
  apply handle_query_single; [exact Hq|].
  unfold answer_question, create_soa_answer_section. rewrite Ht.
  reflexivity.
Qed.

(** ** Construction *)

Lemma split_nonempty (c : ascii) (s : string) : Py.split c s <> [].
Proof.
  destruct s as [|a s]; cbn [Py.split]; [discriminate|].
  destruct (Ascii.eqb a c); [discriminate|].
  destruct (Py.split c s); discriminate.
Qed.

Lemma split_at_separator (c : ascii) (s t : string) :
  Py.split c (s ++ String c t) = (Py.split c s ++ Py.split c t)%list.
Proof.
  induction s as [|a s IH]; cbn [append Py.split].
  - now rewrite Ascii.eqb_refl.
  - rewrite IH. destruct (Ascii.eqb a c); [reflexivity|].
    pose proof (split_nonempty c s) as Hne.
    destruct (Py.split c s); [congruence | reflexivity].
Qed.

Lemma split_service_name (domain : string) :
  Py.split "." (SRVNAME ++ domain)
  = "_concoord" :: "_tcp" :: Py.split "." domain.
Proof.
  change (SRVNAME ++ domain)
    with ("_concoord" ++ String "." ("_tcp" ++ String "." domain)).
  now rewrite !split_at_separator.
Qed.

Lemma Name_new_labels (labels : list string) (n : Dns.Name) :
  Dns.Name_new labels = Ok n -> n = labels.
Proof.
  unfold Dns.Name_new. intros H.
  destruct (existsb _ labels); [discriminate|].
  destruct (_ <? _)%nat; [discriminate|].
  destruct (Dns.first_empty labels 0) as [i|].
  - destruct (S i =? List.length labels)%nat; [congruence | discriminate].
  - congruence.
Qed.

Lemma Name_new_raises (labels : list string) (e : exn) :
  Dns.Name_new labels = Raise e ->
  In e [LabelTooLong; NameTooLong; EmptyLabel].
Proof.
  unfold Dns.Name_new. intros H. cbn [In].
  destruct (existsb _ labels); [left; congruence|].
  destruct (_ <? _)%nat; [right; left; congruence|].
  destruct (Dns.first_empty labels 0) as [i|]; [|discriminate].
  destruct (S i =? List.length labels)%nat; [discriminate|].
  right; right; left; congruence.
Qed.

Lemma first_empty_before (front rest : list string) (j : nat) :
  exists i, Dns.first_empty (front ++ "" :: rest)%list j = Some i
            /\ (i <= j + List.length front)%nat.
Proof.
  revert j. induction front as [|l front IH]; intros j.
  - exists j. split; [reflexivity | simpl; lia].
  - change (Dns.first_empty ((l :: front) ++ "" :: rest)%list j)
      with (if String.eqb l "" then Some j
            else Dns.first_empty (front ++ "" :: rest)%list (S j)).
    destruct (String.eqb l ""); [exists j; split; [reflexivity | lia]|].
    destruct (IH (S j)) as (i & Hi & Hle). exists i.
    split; [exact Hi | simpl; lia].
Qed.

Lemma Name_new_two_empty_labels (front : list string) :
  exists e, Dns.Name_new (front ++ [""; ""])%list = Raise e.
Proof.
  unfold Dns.Name_new.
  destruct (existsb _ (front ++ [""; ""])%list); [now eexists|].
  destruct (_ <? _)%nat; [now eexists|].
  destruct (first_empty_before front [""] 0) as (i & -> & Hle).
  rewrite length_app. cbn [List.length].
  replace (S i =? List.length front + 2)%nat with false
    by (symmetry; apply Nat.eqb_neq; lia).
  now eexists.
Qed.

Lemma Name_eqb_refl (n : Dns.Name) : Dns.Name_eqb n n = true.
Proof.
  induction n as [|l n IH]; cbn [Dns.Name_eqb]; [reflexivity|].
  now rewrite String.eqb_refl, IH.
Qed.

(** X10: [__init__] fails for the empty domain and for every domain that
    ends in a dot (a fully qualified name as one would write it): the
    service name then holds an empty label before its last one, and the
    constructor raises one of the name errors. *)
Theorem init_rejects_empty_or_dotted_domain (domain : string)
    (view : list Replica) (today : string) :
  domain = "" \/ (exists d, domain = d ++ ".") ->
  exists e,
    Nameserver_init domain view today = Raise e
    /\ In e [LabelTooLong; NameTooLong; EmptyLabel].
Proof.
  intros Hshape.
  assert (Hsrv : exists e, Dns.Name_new (Py.split "." (SRVNAME ++ domain ++ "."))
                           = Raise e).
  { destruct Hshape as [-> | [d ->]].
    - exists EmptyLabel. reflexivity.
    - replace (SRVNAME ++ (d ++ ".") ++ ".")
        with ((SRVNAME ++ d) ++ String "." ".")
        by (now rewrite !append_assoc).
      rewrite split_at_separator.
      change (Py.split "." ".") with ([""; ""]).
      apply Name_new_two_empty_labels. }
  destruct Hsrv as [e He]. unfold Nameserver_init.
  destruct (Py.find "." domain) as [[|i]|].
  - cbn [bind]. rewrite He. exists e. split; [reflexivity|].
    now apply Name_new_raises in He.
  - destruct (Dns.Name_new (Py.split "." (domain ++ "."))) as [n|e'] eqn:Hn.
    + cbn [bind]. rewrite He. exists e. split; [reflexivity|].
      now apply Name_new_raises in He.
    + cbn [bind]. exists e'. split; [reflexivity|].
      now apply Name_new_raises in Hn.
  - cbn [bind]. rewrite He. exists e. split; [reflexivity|].
    now apply Name_new_raises in He.
Qed.

(** X11: a nameserver built for a domain with an inner dot holds the
    absolute name of that domain (its labels and the root label) and the
    service name _concoord._tcp.<domain>.; it answers every supported type
    asked for the domain name, and SERVICE asked for the service name. *)
Theorem init_serves_its_domain (domain : string) (view : list Replica)
    (today : string) (self : Nameserver) (i : nat) :
  Nameserver_init domain view today = Ok self ->
  Py.find "." domain = Some (S i) ->
  mydomain self = inl (Py.split "." (domain ++ "."))
  /\ mysrvdomain self
     = "_concoord" :: "_tcp" :: Py.split "." (domain ++ ".")
  /\ (forall rdtype rdclass,
        In rdtype [Dns.A; Dns.AAAA; Dns.TXT; Dns.NS; Dns.SRV; Dns.SOA] ->
        should_answer self
          {| Dns.name := Py.split "." (domain ++ ".");
             Dns.rdtype := rdtype; Dns.rdclass := rdclass |} = true)
  /\ (forall rdclass,
        should_answer self
          {| Dns.name := "_concoord" :: "_tcp" :: Py.split "." (domain ++ ".");
             Dns.rdtype := Dns.SRV; Dns.rdclass := rdclass |} = true).
Proof.
  unfold Nameserver_init. intros Hinit Hfind. rewrite Hfind in Hinit.
  destruct (Dns.Name_new (Py.split "." (domain ++ "."))) as [n|] eqn:Hn;
    [|discriminate].
  cbn [bind] in Hinit.
  destruct (Dns.Name_new (Py.split "." (SRVNAME ++ domain ++ ".")))
    as [srv|] eqn:Hsrv; [|discriminate].
  cbn [bind] in Hinit. injection Hinit as <-.
  apply Name_new_labels in Hn, Hsrv. rewrite split_service_name in Hsrv.
  subst n srv. cbn [mydomain mysrvdomain].
  split; [reflexivity|]. split; [reflexivity|]. split.
  - intros rdtype rdclass Ht.
    unfold should_answer, ismydomainname, name_is_mydomain.
    cbn [Dns.name Dns.rdtype mydomain].
    rewrite Name_eqb_refl. cbn [orb]. rewrite andb_true_r.
    cbn [In] in Ht.
    destruct Ht as [<- | [<- | [<- | [<- | [<- | [<- | []]]]]]]; reflexivity.
  - intros rdclass.
    unfold should_answer, ismydomainname.
    cbn [Dns.name Dns.rdtype mysrvdomain].
    rewrite Name_eqb_refl. cbn. now rewrite orb_true_r.
Qed.

(** X12: a nameserver built for a domain without a dot keeps the domain as
    a bare string, which no question name equals: it answers SERVICE
    questions for the service name and nothing else, whatever name an
    ADDRESS, TEXT, NAME_SERVER or ZONE_AUTHORITY question asks for. *)
Theorem dotless_domain_answers_service_only (domain : string)
    (view : list Replica) (today : string) (self : Nameserver)
    (question : Dns.Question) :
  Nameserver_init domain view today = Ok self ->
  Py.find "." domain = None ->
  mydomain self = inr domain
  /\ (should_answer self question = true ->
      Dns.rdtype question = Dns.SRV
      /\ Dns.Name_eqb (Dns.name question)
           ("_concoord" :: "_tcp" :: Py.split "." (domain ++ ".")) = true)
  /\ (Dns.rdtype question <> Dns.SRV -> should_answer self question = false).
Proof.
  unfold Nameserver_init. intros Hinit Hfind. rewrite Hfind in Hinit.
  cbn [bind] in Hinit.
  destruct (Dns.Name_new (Py.split "." (SRVNAME ++ domain ++ ".")))
    as [srv|] eqn:Hsrv; [|discriminate].
  cbn [bind] in Hinit. injection Hinit as <-.
  apply Name_new_labels in Hsrv. rewrite split_service_name in Hsrv. subst srv.
  split; [reflexivity|].
  assert (Honly : should_answer
                    {| ipconverter := ".ipaddr." ++ domain ++ ".";
                       mydomain := inr domain;
                       mysrvdomain :=
                         "_concoord" :: "_tcp" :: Py.split "." (domain ++ ".");
                       replicas := view;
                       revision := today ++ Py.zfill 2 (Py.str 0) |}
                    question = true ->
                  Dns.rdtype question = Dns.SRV
                  /\ Dns.Name_eqb (Dns.name question)
                       ("_concoord" :: "_tcp" :: Py.split "." (domain ++ "."))
                     = true).
  { match goal with
    | |- should_answer ?built _ = true -> _ =>
        intros Hq;
        exact (bare_domain_answers_only_service built domain question
                 eq_refl Hq)
    end. }
  split; [exact Honly|].
  intros Hnot.
  destruct (should_answer _ question) eqn:Hq; [|reflexivity].
  destruct (Honly eq_refl) as [Ht _]. contradiction.
Qed.

(** ** Outcomes of the formatters and of the builder *)

Lemma index_in_range {X : Type} (xs : list X) (i : N) :
  i < N.of_nat (List.length xs) -> exists x, Py.index xs i = Ok x.
Proof.
  intros Hi. unfold Py.index.
  destruct (nth_error xs (N.to_nat i)) as [x|] eqn:Hx; [now exists x|].
  apply nth_error_None in Hx. lia.
Qed.

Lemma index_out_of_range {X : Type} (xs : list X) (i : N) :
  N.of_nat (List.length xs) <= i -> Py.index xs i = Raise IndexError.
Proof.
  intros Hi. unfold Py.index.
  replace (nth_error xs (N.to_nat i)) with (@None X); [reflexivity|].
  symmetry. apply nth_error_None. lia.
Qed.

Lemma rrclass_lookup (rrclass : N) :
  (rrclass < 5 -> exists s, Py.index RRCLASS rrclass = Ok s)
  /\ (5 <= rrclass -> Py.index RRCLASS rrclass = Raise IndexError).
Proof.
  split; intros H; [apply index_in_range | apply index_out_of_range]; exact H.
Qed.

Lemma rrtype_lookup (rdtype : N) :
  (rdtype < 34 -> exists s, Py.index RRTYPE rdtype = Ok s)
  /\ (34 <= rdtype -> Py.index RRTYPE rdtype = Raise IndexError).
Proof.
  split; intros H; [apply index_in_range | apply index_out_of_range]; exact H.
Qed.

Lemma answer_types_in_table (t : N) :
  In t [Dns.A; Dns.TXT; Dns.NS] -> t < 34.
Proof.
  cbn [In]. intros [<- | [<- | [<- | []]]]; reflexivity.
Qed.

(** X13: what [create_answer_section] does, for every question and class
    index: it returns a line exactly when the class index is below 5 and
    the type is ADDRESS, TEXT or NAME_SERVER; it raises IndexError exactly
    when the class index is 5 or more or the type is 34 or more; in the
    remaining case the payload was never assigned and it raises
    UnboundLocalError. *)
Theorem create_answer_section_outcomes (question : Dns.Question)
    (ttl rrclass : N) (address : string) (txt : option string) :
  ((exists line,
      create_answer_section question ttl rrclass address txt = Ok line)
   <-> rrclass < 5 /\ In (Dns.rdtype question) [Dns.A; Dns.TXT; Dns.NS])
  /\ (create_answer_section question ttl rrclass address txt
      = Raise IndexError
      <-> 5 <= rrclass \/ 34 <= Dns.rdtype question)
  /\ (create_answer_section question ttl rrclass address txt
      = Raise UnboundLocalError
      <-> rrclass < 5 /\ Dns.rdtype question < 34
          /\ ~ In (Dns.rdtype question) [Dns.A; Dns.TXT; Dns.NS]).
Proof.
  assert (Hresp : answer_section_resp question address txt = None
                  <-> ~ In (Dns.rdtype question) [Dns.A; Dns.TXT; Dns.NS]).
  { unfold answer_section_resp. cbn [In].
    destruct (N.eqb_spec (Dns.rdtype question) Dns.A);
      [split; [discriminate | intuition congruence]|].
    destruct (N.eqb_spec (Dns.rdtype question) Dns.TXT);
      [split; [discriminate | intuition congruence]|].
    destruct (N.eqb_spec (Dns.rdtype question) Dns.NS);
      [split; [discriminate | intuition congruence]|].
    split; [intuition congruence | reflexivity]. }
  unfold create_answer_section.
  destruct (N.lt_ge_cases rrclass 5) as [Hc|Hc].
  - destruct (proj1 (rrclass_lookup rrclass) Hc) as [cs ->]. cbn [bind].
    destruct (N.lt_ge_cases (Dns.rdtype question) 34) as [Ht|Ht].
    + destruct (proj1 (rrtype_lookup _) Ht) as [ts ->]. cbn [bind].
      destruct (In_dec N.eq_dec (Dns.rdtype question)
                  [Dns.A; Dns.TXT; Dns.NS]) as [Hin|Hout].
      * destruct (answer_section_resp question address txt) as [r|];
          [|exfalso; now apply (proj1 Hresp)].
        cbn [of_option bind]. split; [|split].
        -- split; [intros _; now split | intros _; now eexists].
        -- split; [discriminate | intros [H | H]; lia].
        -- split; [discriminate | intros (_ & _ & Hout); contradiction].
      * rewrite (proj2 Hresp Hout). cbn [of_option bind]. split; [|split].
        -- split; [intros [line Hl]; discriminate
                  | intros [_ Hin]; contradiction].
        -- split; [discriminate | intros [H | H]; lia].
        -- split; [intros _; repeat split; assumption | reflexivity].
    + rewrite (proj2 (rrtype_lookup _) Ht). cbn [bind]. split; [|split].
      * split; [intros [line Hl]; discriminate|].
        intros [_ Hin]. apply answer_types_in_table in Hin. lia.
      * split; [intros _; now right | reflexivity].
      * split; [discriminate | intros (_ & H & _); lia].
  - rewrite (proj2 (rrclass_lookup rrclass) Hc). cbn [bind]. split; [|split].
    + split; [intros [line Hl]; discriminate | intros [H _]; lia].
    + split; [intros _; now left | reflexivity].
    + split; [discriminate | intros (H & _); lia].
Qed.

(** X14: what [create_response] does: with an opcode below 3 and a result
    code below 6 it returns a text, and the id line of that text reads back
    as the id it was given; with any other opcode or result code it raises
    IndexError. *)
Theorem create_response_outcomes (id opcode rcode : N)
    (flags question answer authority additional : string) :
  (opcode < 3 /\ rcode < 6 ->
   exists text,
     create_response id opcode rcode flags question answer authority
       additional = Ok text
     /\ Dns.message_id (Dns.from_text text) = Ok id)
  /\ (3 <= opcode \/ 6 <= rcode ->
      create_response id opcode rcode flags question answer authority
        additional = Raise IndexError).
Proof.
  split.
  - intros [Hop Hrc].
    destruct (index_in_range OPCODES opcode Hop) as [os Hos].
    destruct (index_in_range RCODES rcode Hrc) as [rs Hrs].
    unfold Py.index in Hos, Hrs.
    destruct (nth_error OPCODES (N.to_nat opcode)) as [os'|] eqn:Hos';
      [|discriminate].
    destruct (nth_error RCODES (N.to_nat rcode)) as [rs'|] eqn:Hrs';
      [|discriminate].
    eexists. split.
    + apply (create_response_sections _ _ _ _ _ _ _ _ os' rs' Hos' Hrs').
    + apply message_id_header.
  - intros Hout. unfold create_response.
    destruct (N.lt_ge_cases opcode 3) as [Hop|Hop].
    + destruct (index_in_range OPCODES opcode Hop) as [os ->]. cbn [bind].
      destruct Hout as [H|H]; [lia|].
      now rewrite (index_out_of_range RCODES rcode H).
    + now rewrite (index_out_of_range OPCODES opcode Hop).
Qed.

(** X15: what [create_srv_answer_section] does: it returns a line exactly
    when the class index is below 5, the question's type is below 34 and a
    port is given; inside the tables but without a port (the default) it
    raises TypeError; outside them it raises IndexError. *)
Theorem create_srv_answer_section_outcomes (question : Dns.Question)
    (ttl rrclass priority weight : N) (port : option N) (target : string) :
  ((exists line,
      create_srv_answer_section question ttl rrclass priority weight port
        target = Ok line)
   <-> rrclass < 5 /\ Dns.rdtype question < 34 /\ port <> None)
  /\ (create_srv_answer_section question ttl rrclass priority weight port
        target = Raise TypeError
      <-> rrclass < 5 /\ Dns.rdtype question < 34 /\ port = None)
  /\ (create_srv_answer_section question ttl rrclass priority weight port
        target = Raise IndexError
      <-> 5 <= rrclass \/ 34 <= Dns.rdtype question).
Proof.
  unfold create_srv_answer_section.
  destruct (N.lt_ge_cases rrclass 5) as [Hc|Hc].
  - destruct (proj1 (rrclass_lookup rrclass) Hc) as [cs ->]. cbn [bind].
    destruct (N.lt_ge_cases (Dns.rdtype question) 34) as [Ht|Ht].
    + destruct (proj1 (rrtype_lookup _) Ht) as [ts ->]. cbn [bind].
      destruct port as [p|]; cbn [of_option bind]; split; [|split| |split].
      * split; [intros _; repeat split; [assumption..|discriminate]
               | intros _; now eexists].
      * split; [discriminate | intros (_ & _ & H); discriminate].
      * split; [discriminate | intros [H | H]; lia].
      * split; [intros [line Hl]; discriminate
               | intros (_ & _ & H); congruence].
      * split; [intros _; repeat split; assumption | reflexivity].
      * split; [discriminate | intros [H | H]; lia].
    + rewrite (proj2 (rrtype_lookup _) Ht). cbn [bind]. split; [|split].
      * split; [intros [line Hl]; discriminate | intros (_ & H & _); lia].
      * split; [discriminate | intros (_ & H & _); lia].
      * split; [intros _; now right | reflexivity].
  - rewrite (proj2 (rrclass_lookup rrclass) Hc). cbn [bind]. split; [|split].
    + split; [intros [line Hl]; discriminate | intros (H & _); lia].
    + split; [discriminate | intros (H & _); lia].
    + split; [intros _; now left | reflexivity].
Qed.

(** X16: [create_authority_section] and [create_additional_section] are the
    same formatter; they take the type from their own argument, not from
    the question, so with their defaults they give the ADDRESS line for a
    question of any type: the line [create_answer_section] gives for an
    ADDRESS question. *)
Theorem authority_and_additional_lines (question : Dns.Question) :
  (forall ttl rrclass rrtype host,
     create_authority_section question ttl rrclass rrtype host
     = create_additional_section question ttl rrclass rrtype host)
  /\ (forall address,
        create_additional_section question "30" 1 1 address
        = Ok (render_record (plain_record question "A" address)))
  /\ (forall address txt,
        Dns.rdtype question = Dns.A ->
        create_answer_section question 30 1 address txt
        = create_additional_section question "30" 1 1 address).
Proof.
  split; [reflexivity|]. split; [reflexivity|].
  intros address txt Ht.
  now rewrite (create_answer_section_A question address txt Ht).
Qed.

(** X17: [create_mx_answer_section] returns a line exactly when the class
    index is below 5 and the question's type is below 34, and raises
    IndexError otherwise; for an MX question (type 15) and its defaults the
    line is "<name> 30 IN MX 0 <addr>". *)
Theorem create_mx_answer_section_outcomes (question : Dns.Question)
    (ttl rrclass priority : N) (address : string) :
  ((exists line,
      create_mx_answer_section question ttl rrclass priority address
      = Ok line)
   <-> rrclass < 5 /\ Dns.rdtype question < 34)
  /\ (create_mx_answer_section question ttl rrclass priority address
      = Raise IndexError
      <-> 5 <= rrclass \/ 34 <= Dns.rdtype question)
  /\ (Dns.rdtype question = 15 ->
      create_mx_answer_section question 30 1 0 address
      = Ok (render_record (plain_record question "MX" ("0 " ++ address)))).
Proof.
  unfold create_mx_answer_section. split; [|split].
  - destruct (N.lt_ge_cases rrclass 5) as [Hc|Hc].
    + destruct (proj1 (rrclass_lookup rrclass) Hc) as [cs ->]. cbn [bind].
      destruct (N.lt_ge_cases (Dns.rdtype question) 34) as [Ht|Ht].
      * destruct (proj1 (rrtype_lookup _) Ht) as [ts ->]. cbn [bind].
        split; [intros _; now split | intros _; now eexists].
      * rewrite (proj2 (rrtype_lookup _) Ht). cbn [bind].
        split; [intros [line Hl]; discriminate | intros [_ H]; lia].
    + rewrite (proj2 (rrclass_lookup rrclass) Hc). cbn [bind].
      split; [intros [line Hl]; discriminate | intros [H _]; lia].
  - destruct (N.lt_ge_cases rrclass 5) as [Hc|Hc].
    + destruct (proj1 (rrclass_lookup rrclass) Hc) as [cs ->]. cbn [bind].
      destruct (N.lt_ge_cases (Dns.rdtype question) 34) as [Ht|Ht].
      * destruct (proj1 (rrtype_lookup _) Ht) as [ts ->]. cbn [bind].
        split; [discriminate | intros [H | H]; lia].
      * rewrite (proj2 (rrtype_lookup _) Ht). cbn [bind].
        split; [intros _; now right | reflexivity].
    + rewrite (proj2 (rrclass_lookup rrclass) Hc). cbn [bind].
      split; [intros _; now left | reflexivity].
  - intros Ht. rewrite Ht. reflexivity.
Qed.

(** X18: over an empty view an answerable TEXT question still gets one
    answer record; its payload is the empty quoted string. *)
Theorem empty_view_text_reply (self : Nameserver) (id : N)
    (question : Dns.Question) :
  replicas self = [] ->
  should_answer self question = true ->
  Dns.rdtype question = Dns.TXT ->
  handle_query self (single id question)
  = Ok (Some (Dns.from_text
                (response_text id "QR AA" (Dns.question_to_text question)
                   (render_record
                      (plain_record question "TXT"
                         (Py.dquote ++ Py.dquote)))))).
Proof.
  intros Hview Hq Ht. apply handle_query_single; [exact Hq|].
  rewrite (answer_question_TXT self question Ht), Hview. reflexivity.
Qed.

End Properties.

(** * The model on the sample deployment *)

Import Sample.

(** The sample server is what [__init__] builds for example.com. *)
Lemma sample_server_init :
  Nameserver_init "example.com" Sample.view "20240601" = Ok Sample.server.
Proof.
  reflexivity.
Qed.

(** C1, as stated, fails: the first question of this query is in scope and
    of a supported type, the second is of an unsupported type, and nothing
    is sent, although the unsupported question is not the only one. *)
Lemma mixed_query_gets_no_response :
  Dns.question Sample.mixed_query = [Sample.ask Dns.A; Sample.ask Sample.MX]
  /\ should_answer Sample.server (Sample.ask Dns.A) = true
  /\ should_answer Sample.server (Sample.ask Sample.MX) = false
  /\ handle_query Sample.server Sample.mixed_query = Ok None
  /\ (exists m, handle_query Sample.server (single 7 (Sample.ask Dns.A))
                = Ok (Some m)).
Proof.
  repeat split. eexists. reflexivity.
Qed.

(** C4, as stated, fails on the empty view: the payload is the empty
    string, which splits on ';' into one (empty) segment, not into none. *)
Lemma empty_view_payload_has_one_segment :
  should_answer Sample.empty_server (Sample.ask Dns.TXT) = true
  /\ replicas Sample.empty_server = []
  /\ txtresponse Sample.empty_server = ""
  /\ Py.split ";" (txtresponse Sample.empty_server) = [""]
  /\ List.length (Py.split ";" (txtresponse Sample.empty_server)) = 1%nat
  /\ List.length (replicas Sample.empty_server) = 0%nat.
Proof.
  repeat split.
Qed.

(** C2, where the code departs from it: a hundred calls of [update] on one
    day leave the three-digit serial 100, and the next call on the same day
    reads its last two digits only and stores the serial 01. *)
Theorem serial_wraps_after_hundred_updates :
  revision_after 99 "20240601" Sample.server = Ok "2024060199"
  /\ revision_after 100 "20240601" Sample.server = Ok "20240601100"
  /\ revision_after 101 "20240601" Sample.server = Ok "2024060101".
Proof.
  repeat split; vm_compute; reflexivity.
Qed.

(** The day test of [update] is a substring test: a day that occurs
    inside the stored revision, across the boundary of date and serial,
    passes for the stored day. *)
Lemma stale_day_substring_match :
  update "20110507" "20110507" (Sample.server_with Sample.view "2020110507")
  = Ok (Sample.server_with Sample.view "2011050708").
Proof.
  reflexivity.
Qed.

(** The TEXT reply of the sample server, and its payload split on ';'. *)
Lemma text_record_joins_segments_witness :
  handle_query Sample.server (single 7 (Sample.ask Dns.TXT))
  = Ok (Some (Dns.from_text
                (response_text 7 "QR AA"
                   (Dns.question_to_text (Sample.ask Dns.TXT))
                   (render_record
                      {| owner := "example.com."; ttl := 30; rclass := "IN";
                         rtype := "TXT";
                         payload := Py.dquote
                                    ++ "REPLICA 10.0.0.1:14000;NAMESERVER 10.0.0.2:14001"
                                    ++ Py.dquote |}))))
  /\ Py.split ";" (txtresponse Sample.server)
     = ["REPLICA 10.0.0.1:14000"; "NAMESERVER 10.0.0.2:14001"].
Proof.
  destruct (text_record_joins_segments Sample.server 7 (Sample.ask Dns.TXT)
              eq_refl eq_refl) as (Hsent & _ & Hsplit).
  split; [exact Hsent|].
  apply Hsplit.
  - discriminate.
  - repeat constructor.
Defined.


(** The SERVICE reply of the sample server, built by [__init__] for
    example.com. *)
Lemma service_records_per_pair_witness :
  handle_query Sample.server (single 7 Sample.service_question)
  = Ok (Some (Dns.from_text
                (response_text 7 "QR AA"
                   (Dns.question_to_text Sample.service_question)
                   (flat (map render_service
                            [ {| srv_owner := "_concoord._tcp.example.com.";
                                 srv_ttl := 30; srv_priority := 0;
                                 srv_weight := 100; srv_port := 14000;
                                 srv_target := "10.0.0.1.ipaddr.example.com." |};
                              {| srv_owner := "_concoord._tcp.example.com.";
                                 srv_ttl := 30; srv_priority := 0;
                                 srv_weight := 100; srv_port := 14001;
                                 srv_target := "10.0.0.2.ipaddr.example.com." |}
                            ]))))).
Proof.
  exact (service_records_per_pair "example.com" Sample.view "20240601"
           Sample.server 7 Sample.service_question
           sample_server_init eq_refl eq_refl).
Defined.

(** The flags of the sample server's ADDRESS6 and ZONE_AUTHORITY replies. *)
Lemma flags_by_record_type_witness :
  (answer_question Sample.server (Sample.ask Dns.AAAA) = Ok ("QR", "")
   /\ handle_query Sample.server (single 7 (Sample.ask Dns.AAAA))
      = Ok (Some (Dns.from_text
                    (response_header 7 "QR"
                       (Dns.question_to_text (Sample.ask Dns.AAAA))))))
  /\ (exists answerstr,
        answer_question Sample.server (Sample.ask Dns.SOA)
        = Ok ("QR AA", answerstr)
        /\ handle_query Sample.server (single 7 (Sample.ask Dns.SOA))
           = Ok (Some (Dns.from_text
                         (response_text 7 "QR AA"
                            (Dns.question_to_text (Sample.ask Dns.SOA))
                            answerstr)))).
Proof.
  split.
  - apply (flags_by_record_type Sample.server 7 (Sample.ask Dns.AAAA) eq_refl).
    reflexivity.
  - apply (flags_by_record_type Sample.server 7 (Sample.ask Dns.SOA) eq_refl).
    discriminate.
Defined.

(** A built text with an authority section only. *)
Lemma empty_sections_are_omitted_witness :
  exists body,
    create_response 7 Dns.QUERY Dns.NOERROR "QR AA" "example.com. IN NS"
      "" ("example.com. 30 IN NS 10.0.0.2" ++ Py.nl) ""
    = Ok (header_text 7 "QUERY" "NOERROR" "QR AA" "example.com. IN NS" ++ body)
    /\ body = ";AUTHORITY" ++ Py.nl
              ++ ("example.com. 30 IN NS 10.0.0.2" ++ Py.nl) ++ Py.nl.
Proof.
  destruct (empty_sections_are_omitted 7 Dns.QUERY Dns.NOERROR "QR AA"
              "example.com. IN NS" ""
              ("example.com. 30 IN NS 10.0.0.2" ++ Py.nl) ""
              "QUERY" "NOERROR" eq_refl eq_refl)
    as (body & Hbuilt & _ & Hbody & _).
  exists body. split; [exact Hbuilt | exact Hbody].
Defined.

(** A SERVICE and a ZONE_AUTHORITY question in one query: the reply is the
    ZONE_AUTHORITY reply. *)
Lemma last_answerable_question_wins_witness :
  last_answerable Sample.server (Dns.question Sample.two_questions)
  = Some (Sample.ask Dns.SOA)
  /\ exists m,
       handle_query Sample.server Sample.two_questions = Ok (Some m)
       /\ handle_query Sample.server (single 7 (Sample.ask Dns.SOA))
          = Ok (Some m).
Proof.
  split; [reflexivity|].
  destruct (last_answerable_question_wins Sample.server Sample.two_questions
              (le_n 2)) as [Hsent Hlast].
  destruct (Hsent eq_refl) as [m Hm].
  destruct (Hlast m Hm) as (q & f & a & Hq & _ & _ & Hsingle).
  exists m. split; [exact Hm|].
  assert (Hsoa : q = Sample.ask Dns.SOA).
  { change (last_answerable Sample.server (Dns.question Sample.two_questions))
      with (Some (Sample.ask Dns.SOA)) in Hq. congruence. }
  rewrite <- Hsoa. exact Hsingle.
Defined.

(** * The further properties on the sample deployment *)

(** The dotless sample server is what [__init__] builds for localhost. *)
Lemma local_server_init :
  Nameserver_init "localhost" Sample.view "20240601" = Ok Sample.local_server.
Proof.
  reflexivity.
Qed.

(** The reply to the two-question query carries the query's id 7. *)
Lemma sent_response_keeps_query_id_witness :
  exists m,
    handle_query Sample.server Sample.two_questions = Ok (Some m)
    /\ Dns.message_id m = Ok 7.
Proof.
  eexists. split; [reflexivity|].
  exact (sent_response_keeps_query_id Sample.server Sample.two_questions _
           eq_refl).
Defined.

(** The NAME_SERVER reply over the empty view. *)
Lemma empty_view_reply_has_no_answer_section_witness :
  handle_query Sample.empty_server (single 7 (Sample.ask Dns.NS))
  = Ok (Some (Dns.from_text
                (response_header 7 "QR AA"
                   (Dns.question_to_text (Sample.ask Dns.NS))))).
Proof.
  apply (empty_view_reply_has_no_answer_section Sample.empty_server 7
           (Sample.ask Dns.NS)).
  - reflexivity.
  - reflexivity.
  - right. left. reflexivity.
Defined.

(** The NAME_SERVER reply of the sample server: the one nameserver node. *)
Lemma name_server_records_are_addresses_witness :
  exists records : list AnswerRecord,
    handle_query Sample.server (single 7 (Sample.ask Dns.NS))
    = Ok (Some (Dns.from_text
                  (response_text 7 "QR AA"
                     (Dns.question_to_text (Sample.ask Dns.NS))
                     (flat (map render_record records)))))
    /\ map payload records = ["10.0.0.2"].
Proof.
  destruct (name_server_records_are_addresses Sample.server 7
              (Sample.ask Dns.NS) eq_refl eq_refl)
    as (records & Hsent & Hpay & _).
  exists records. split; [exact Hsent | exact Hpay].
Defined.

(** The ZONE_AUTHORITY reply of the sample server. *)
Lemma zone_authority_reply_witness :
  handle_query Sample.server (single 7 (Sample.ask Dns.SOA))
  = Ok (Some (Dns.from_text
                (response_text 7 "QR AA"
                   (Dns.question_to_text (Sample.ask Dns.SOA))
                   "example.com. 30 IN SOA example.com. dns-admin.example.com. (2024060100 86000 7200 360000 432000)"))).
Proof.
  exact (zone_authority_reply Sample.server 7 (Sample.ask Dns.SOA)
           eq_refl eq_refl).
Defined.

(** One call of [update] on the sample server. *)
Lemma update_changes_zone_authority_only_witness :
  update "20240601" "20240601" Sample.server
  = Ok (Sample.server_with Sample.view "2024060101")
  /\ replicas (Sample.server_with Sample.view "2024060101") = Sample.view
  /\ should_answer (Sample.server_with Sample.view "2024060101")
       (Sample.ask Dns.A)
     = should_answer Sample.server (Sample.ask Dns.A)
  /\ answer_question (Sample.server_with Sample.view "2024060101")
       (Sample.ask Dns.TXT)
     = answer_question Sample.server (Sample.ask Dns.TXT).
Proof.
  split; [reflexivity|].
  destruct (update_changes_zone_authority_only "20240601" "20240601"
              Sample.server (Sample.server_with Sample.view "2024060101")
              eq_refl) as (Hview & Hclass & Hanswer).
  split; [exact Hview|]. split; [apply Hclass|].
  apply Hanswer. discriminate.
Defined.

(** Three calls of [update] across a day boundary. *)
Lemma update_never_raises_after_init_witness :
  exists self',
    update_all Sample.three_clocks Sample.server = Ok self'
    /\ replicas self' = Sample.view
    /\ ends_in_two_digits (revision self') = true.
Proof.
  exact (update_never_raises_after_init "example.com" Sample.view "20240601"
           Sample.server Sample.three_clocks sample_server_init).
Defined.

(** Three calls of [update] on the day of construction. *)
Lemma revision_counts_same_day_updates_witness :
  exists serial,
    revision_after 3 "20240601" Sample.server = Ok ("20240601" ++ serial)
    /\ String.length serial = 2%nat
    /\ Py.int serial = Ok 3.
Proof.
  apply (revision_counts_same_day_updates "example.com" Sample.view
           "20240601" Sample.server 3 sample_server_init).
  lia.
Defined.

(** Three calls of [update] on the day after construction. *)
Lemma day_rollover_restarts_serial_witness :
  revision_after 3 "20240602" Sample.server = Ok "2024060202".
Proof.
  apply (day_rollover_restarts_serial "20240602" Sample.server 2).
  - reflexivity.
  - lia.
Defined.

(** The SOA record of the sample server after three calls of [update]. *)
Lemma zone_authority_follows_updates_witness :
  exists self',
    updates 3 "20240601" Sample.server = Ok self'
    /\ revision self' = "2024060103"
    /\ mydomain_str self' = "example.com."
    /\ handle_query self' (single 7 (Sample.ask Dns.SOA))
       = Ok (Some (Dns.from_text
                     (response_text 7 "QR AA"
                        (Dns.question_to_text (Sample.ask Dns.SOA))
                        (zone_authority_line self' (Sample.ask Dns.SOA))))).
Proof.
  assert (Hn : (3 <= 99)%nat) by lia.
  destruct (zone_authority_follows_updates "example.com" Sample.view
              "20240601" Sample.server 3 7 (Sample.ask Dns.SOA)
              sample_server_init Hn eq_refl eq_refl)
    as (self' & Hrun & Hrev & Hdom & Hsent).
  exists self'. split; [exact Hrun|]. split; [exact Hrev|].
  split; [exact Hdom | exact Hsent].
Defined.

(** A fully qualified domain, written with its final dot, is refused. *)
Lemma init_rejects_empty_or_dotted_domain_witness :
  exists e,
    Nameserver_init "example.com." Sample.view "20240601" = Raise e
    /\ In e [LabelTooLong; NameTooLong; EmptyLabel].
Proof.
  apply (init_rejects_empty_or_dotted_domain "example.com." Sample.view
           "20240601").
  right. exists "example.com". reflexivity.
Defined.

(** The sample server serves example.com. and its service name. *)
Lemma init_serves_its_domain_witness :
  mydomain Sample.server = inl ["example"; "com"; ""]
  /\ mysrvdomain Sample.server = ["_concoord"; "_tcp"; "example"; "com"; ""]
  /\ should_answer Sample.server (Sample.ask Dns.TXT) = true
  /\ should_answer Sample.server Sample.service_question = true.
Proof.
  destruct (init_serves_its_domain "example.com" Sample.view "20240601"
              Sample.server 6 sample_server_init eq_refl)
    as (Hdomain & Hsrv & Hown & Hservice).
  split; [exact Hdomain|]. split; [exact Hsrv|]. split.
  - apply (Hown Dns.TXT 1). right. right. left. reflexivity.
  - exact (Hservice 1).
Defined.

(** The server for localhost answers no ADDRESS question for localhost. *)
Lemma dotless_domain_answers_service_only_witness :
  mydomain Sample.local_server = inr "localhost"
  /\ should_answer Sample.local_server
       {| Dns.name := ["localhost"; ""]; Dns.rdtype := Dns.A;
          Dns.rdclass := 1 |} = false.
Proof.
  destruct (dotless_domain_answers_service_only "localhost" Sample.view
              "20240601" Sample.local_server
              {| Dns.name := ["localhost"; ""]; Dns.rdtype := Dns.A;
                 Dns.rdclass := 1 |}
              local_server_init eq_refl) as (Hbare & _ & Hnot).
  split; [exact Hbare|]. apply Hnot. discriminate.
Defined.

(** The TEXT reply over the empty view. *)
Lemma empty_view_text_reply_witness :
  handle_query Sample.empty_server (single 7 (Sample.ask Dns.TXT))
  = Ok (Some (Dns.from_text
                (response_text 7 "QR AA"
                   (Dns.question_to_text (Sample.ask Dns.TXT))
                   (render_record
                      (plain_record (Sample.ask Dns.TXT) "TXT"
                         (Py.dquote ++ Py.dquote)))))).
Proof.
  exact (empty_view_text_reply Sample.empty_server 7 (Sample.ask Dns.TXT)
           eq_refl eq_refl eq_refl).
Defined.

(** C3, where the code departs from it: for the dotless domain localhost
    [__init__] succeeds but keeps the domain as a bare string.  The
    question name localhost. is the name of the configured domain (the
    labels the dotted branch of [__init__] would have stored, which that
    branch compares equal), its type is supported, and still the classifier
    rejects it for every type but SERVICE, so the query is dropped.  For
    example.com, which goes through the dotted branch, the same questions
    are answered. *)
Theorem dotless_domain_name_is_not_answered :
  Nameserver_init "localhost" Sample.view "20240601" = Ok Sample.local_server
  /\ Dns.Name_new (Py.split "." ("localhost" ++ ".")) = Ok ["localhost"; ""]
  /\ Dns.Name_eqb ["localhost"; ""] ["localhost"; ""] = true
  /\ map (fun rdtype =>
            should_answer Sample.local_server
              {| Dns.name := ["localhost"; ""]; Dns.rdtype := rdtype;
                 Dns.rdclass := 1 |})
       [Dns.A; Dns.AAAA; Dns.TXT; Dns.NS; Dns.SOA]
     = [false; false; false; false; false]
  /\ handle_query Sample.local_server
       (single 7 {| Dns.name := ["localhost"; ""]; Dns.rdtype := Dns.A;
                    Dns.rdclass := 1 |})
     = Ok None
  /\ map (fun rdtype => should_answer Sample.server (Sample.ask rdtype))
       [Dns.A; Dns.AAAA; Dns.TXT; Dns.NS; Dns.SOA]
     = [true; true; true; true; true].
Proof.
  repeat split.
Qed.
